(** * The streaming client of [app/ai_engine.py]

    A shallow embedding of [DeepSeekTranslator]: the lazily created HTTP
    session, the request builder, the server-sent-event decoder inside
    [_call_deepseek_api], its error handlers, and the two translation
    directions in their streaming and buffered forms.

    Python values are modelled as follows.
    - [str] is a list of Unicode code points ([text]); [bytes] is a list of
      [Byte.byte].
    - A value produced by [json.loads] is a [pyvalue]; floats keep the exact
      decimal they were written as, which is all that truth-testing needs.
    - An async generator is the list of values it yields together with the
      way it ends (a writer/error monad, [gen]); the translator and the
      world it returns with are those left once it has run to its end.
    - Session objects live in a store indexed by location, so that the
      translator's [_session] attribute and a caller's handle alias.
    - The remote endpoint is a function from the request to what
      [aiohttp] reports for it: an exception, or a response with its
      status, the outcomes of [text()] and [json()], and the chunks that
      [content.iter_any()] delivers with the way the body ends.

    The library routines the source calls ([bytes.decode], [str.strip],
    [str.split], [json.loads]) are modelled after CPython 3.11.

    Left out: exceptions that do not derive from [Exception] (task
    cancellation, interpreter exit), the interpreter's recursion limit,
    and what [print] writes; [print] is taken to succeed. *)

From Stdlib Require Import List NArith ZArith Lia Bool.
From Stdlib Require Import Strings.String Strings.Ascii Strings.Byte.
From Stdlib Require Import Numbers.DecimalString.
From stdpp Require Import base numbers list option gmap.
Import ListNotations.

Local Open Scope N_scope.

(** ** Text and bytes *)

Definition text := list N.
Definition bytes := list byte.

Definition text_eqb (a b : text) : bool := bool_decide (a = b).

(** *** [bytes.decode('utf-8', errors=...)]

    The decoder walks the bytes as CPython's [utf8_decode] does and reports,
    for each position, either a decoded code point or a run of bytes that
    is not part of any well-formed sequence. The error handler then decides
    what a bad run becomes. *)

Inductive utf8_item : Type :=
  | UChar (c : N)
  | UBad (n : nat).

Definition is_continuation (b : N) : bool := (0x80 <=? b) && (b <? 0xC0).

Definition low6 (b : N) : N := N.land b 0x3F.

Fixpoint utf8_scan (bs : bytes) : list utf8_item :=
  match bs with
  | [] => []
  | b1 :: r1 =>
    let ch := Byte.to_N b1 in
    if ch <? 0x80 then UChar ch :: utf8_scan r1
    else if ch <? 0xC2 then UBad 1 :: utf8_scan r1
    else if ch <? 0xE0 then
      match r1 with
      | [] => [UBad 1]
      | b2 :: r2 =>
        let ch2 := Byte.to_N b2 in
        if is_continuation ch2
        then UChar (N.lor (N.shiftl (N.land ch 0x1F) 6) (low6 ch2)) :: utf8_scan r2
        else UBad 1 :: utf8_scan r1
      end
    else if ch <? 0xF0 then
      match r1 with
      | [] => [UBad 1]
      | b2 :: r2 =>
        let ch2 := Byte.to_N b2 in
        if negb (is_continuation ch2)
           || (if ch2 <? 0xA0 then ch =? 0xE0 else ch =? 0xED)
        then UBad 1 :: utf8_scan r1
        else
          match r2 with
          | [] => [UBad 2]
          | b3 :: r3 =>
            let ch3 := Byte.to_N b3 in
            if is_continuation ch3
            then UChar (N.lor (N.shiftl (N.land ch 0x0F) 12)
                          (N.lor (N.shiftl (low6 ch2) 6) (low6 ch3)))
                   :: utf8_scan r3
            else UBad 2 :: utf8_scan r2
          end
      end
    else if ch <? 0xF5 then
      match r1 with
      | [] => [UBad 1]
      | b2 :: r2 =>
        let ch2 := Byte.to_N b2 in
        if negb (is_continuation ch2)
           || (if ch2 <? 0x90 then ch =? 0xF0 else ch =? 0xF4)
        then UBad 1 :: utf8_scan r1
        else
          match r2 with
          | [] => [UBad 2]
          | b3 :: r3 =>
            let ch3 := Byte.to_N b3 in
            if negb (is_continuation ch3) then UBad 2 :: utf8_scan r2
            else
              match r3 with
              | [] => [UBad 3]
              | b4 :: r4 =>
                let ch4 := Byte.to_N b4 in
                if is_continuation ch4
                then UChar (N.lor (N.shiftl (N.land ch 0x07) 18)
                              (N.lor (N.shiftl (low6 ch2) 12)
                                 (N.lor (N.shiftl (low6 ch3) 6) (low6 ch4))))
                       :: utf8_scan r4
                else UBad 3 :: utf8_scan r3
              end
          end
      end
    else UBad 1 :: utf8_scan r1
  end.

Inductive decode_errors : Type := Strict | Ignore | Replace.

Definition REPLACEMENT_CHARACTER : N := 0xFFFD.

Definition is_bad (i : utf8_item) : bool :=
  match i with UBad _ => true | UChar _ => false end.

Definition item_chars (errors : decode_errors) (i : utf8_item) : text :=
  match i with
  | UChar c => [c]
  | UBad _ =>
    match errors with
    | Replace => [REPLACEMENT_CHARACTER]
    | _ => []
    end
  end.

(** [None] stands for [UnicodeDecodeError], which only the strict handler
    raises. *)
Definition bytes_decode (errors : decode_errors) (bs : bytes) : option text :=
  let items := utf8_scan bs in
  match errors with
  | Strict =>
    if existsb is_bad items then None
    else Some (flat_map (item_chars Strict) items)
  | _ => Some (flat_map (item_chars errors) items)
  end.

(** [chunk.decode('utf-8', errors='ignore')], line 153. *)
Definition decode_ignore (chunk : bytes) : text :=
  flat_map (item_chars Ignore) (utf8_scan chunk).

(** A string literal of the source, read as the code points it denotes. *)
Definition lit (s : string) : text := decode_ignore (list_byte_of_string s).

(** *** [str] methods used by the source *)

Definition NL : N := 10.
Definition QUOTE : N := 34.
Definition BACKSLASH : N := 92.

(** The code point of an ASCII character. *)
Definition chr (a : ascii) : N := N_of_ascii a.

(** [str.isspace] on one code point: the characters [str.strip()] removes. *)
Definition is_space (c : N) : bool :=
  ((0x09 <=? c) && (c <=? 0x0D)) || ((0x1C <=? c) && (c <=? 0x20))
  || (c =? 0x85) || (c =? 0xA0) || (c =? 0x1680)
  || ((0x2000 <=? c) && (c <=? 0x200A))
  || (c =? 0x2028) || (c =? 0x2029) || (c =? 0x202F) || (c =? 0x205F)
  || (c =? 0x3000).

Fixpoint lstrip (t : text) : text :=
  match t with
  | [] => []
  | c :: t' => if is_space c then lstrip t' else t
  end.

Definition rstrip (t : text) : text := rev (lstrip (rev t)).

(** [t.strip()] *)
Definition strip (t : text) : text := rstrip (lstrip t).

(** [t.startswith(p)] *)
Fixpoint startswith (p t : text) : bool :=
  match p, t with
  | [], _ => true
  | _ :: _, [] => false
  | a :: p', b :: t' => (a =? b) && startswith p' t'
  end.

(** [needle in hay] for two strings. *)
Fixpoint contains (needle hay : text) : bool :=
  startswith needle hay
  || match hay with
     | [] => false
     | _ :: hay' => contains needle hay'
     end.

(** [t.split('\n')]: never empty; the last element is what follows the last
    newline. *)
Fixpoint split_nl (t : text) : list text :=
  match t with
  | [] => [[]]
  | c :: t' =>
    if c =? NL then [] :: split_nl t'
    else
      match split_nl t' with
      | l :: ls => (c :: l) :: ls
      | [] => [[c]]
      end
  end.

(** [str(n)] for an [int]. *)
Definition str_of_int (z : Z) : text :=
  lit (DecimalString.NilZero.string_of_int (Z.to_int z)).

(** ** Exceptions

    Only the classes that a handler of the source tells apart, or that the
    modelled library routines raise. [exc_str] is [str(e)]. *)

Inductive exc_class : Type :=
  | ClientConnectorError   (* aiohttp.ClientConnectorError *)
  | ClientError            (* any other aiohttp.ClientError *)
  | TimeoutError           (* asyncio.TimeoutError *)
  | JSONDecodeError        (* json.JSONDecodeError *)
  | ValueError
  | TypeError
  | AttributeError
  | KeyError
  | IndexError
  | RecursionError
  | OtherException.        (* any other subclass of Exception *)

Record py_exc : Type := mk_exc { exc_type : exc_class; exc_str : text }.

(** [isinstance(e, aiohttp.ClientConnectorError)] *)
Definition is_ClientConnectorError (e : py_exc) : bool :=
  match exc_type e with ClientConnectorError => true | _ => false end.

(** [isinstance(e, aiohttp.ClientError)]: the connector error is a subclass. *)
Definition is_ClientError (e : py_exc) : bool :=
  match exc_type e with ClientConnectorError | ClientError => true | _ => false end.

(** [isinstance(e, asyncio.TimeoutError)] *)
Definition is_TimeoutError (e : py_exc) : bool :=
  match exc_type e with TimeoutError => true | _ => false end.

(** [isinstance(e, json.JSONDecodeError)] *)
Definition is_JSONDecodeError (e : py_exc) : bool :=
  match exc_type e with JSONDecodeError => true | _ => false end.

Inductive result (A : Type) : Type :=
  | Ok (a : A)
  | Raise (e : py_exc).
Arguments Ok {A} a.
Arguments Raise {A} e.

Definition rbind {A B : Type} (r : result A) (f : A -> result B) : result B :=
  match r with
  | Ok a => f a
  | Raise e => Raise e
  end.

Declare Scope result_scope.
Delimit Scope result_scope with result.
Notation "'let!' x ':=' r 'in' k" := (rbind r (fun x => k))
  (at level 10, x name, r at level 100, k at level 200) : result_scope.

(** ** Values *)

#[local] Set Warnings "-register-all".

Inductive pyvalue : Type :=
  | PyNone
  | PyBool (b : bool)
  | PyInt (z : Z)
  | PyFloat (m e : Z)        (* the float nearest to m * 10^e *)
  | PyNaN
  | PyInf (negative : bool)
  | PyStr (s : text)
  | PyList (l : list pyvalue)
  | PyDict (d : list (text * pyvalue)).

(** A decimal rounds to the float zero exactly when its magnitude is at
    most 2^-1075, half of the smallest positive double. *)
Definition float_is_zero (m e : Z) : bool :=
  (m =? 0)%Z
  || ((e <? 0)%Z && (Z.abs m * 2 ^ 1075 <=? 10 ^ (- e))%Z).

(** [bool(v)] *)
Definition truthy (v : pyvalue) : bool :=
  match v with
  | PyNone => false
  | PyBool b => b
  | PyInt z => negb (z =? 0)%Z
  | PyFloat m e => negb (float_is_zero m e)
  | PyNaN => true
  | PyInf _ => true
  | PyStr s => match s with [] => false | _ => true end
  | PyList l => match l with [] => false | _ => true end
  | PyDict d => match d with [] => false | _ => true end
  end.

(** [type(v).__name__] *)
Definition type_name (v : pyvalue) : text :=
  match v with
  | PyNone => lit "NoneType"
  | PyBool _ => lit "bool"
  | PyInt _ => lit "int"
  | PyFloat _ _ | PyNaN | PyInf _ => lit "float"
  | PyStr _ => lit "str"
  | PyList _ => lit "list"
  | PyDict _ => lit "dict"
  end.

(** Dictionaries keep insertion order and one binding per key. *)
Fixpoint dict_lookup (k : text) (d : list (text * pyvalue)) : option pyvalue :=
  match d with
  | [] => None
  | (k', v) :: d' => if text_eqb k k' then Some v else dict_lookup k d'
  end.

(** [d[k] = v] *)
Fixpoint dict_set (k : text) (v : pyvalue) (d : list (text * pyvalue))
  : list (text * pyvalue) :=
  match d with
  | [] => [(k, v)]
  | (k', v') :: d' =>
    if text_eqb k k' then (k', v) :: d' else (k', v') :: dict_set k v d'
  end.

(** [dict(pairs)] *)
Definition dict_of_pairs (pairs : list (text * pyvalue)) : list (text * pyvalue) :=
  fold_left (fun d kv => dict_set (fst kv) (snd kv) d) pairs [].

(** [v == PyStr s] for a string [s]. *)
Definition eq_str (s : text) (v : pyvalue) : bool :=
  match v with PyStr s' => text_eqb s s' | _ => false end.

Definition quoted (t : text) : text := lit "'" ++ t ++ lit "'".

(** [v.get(key, default)] *)
Definition py_get (v : pyvalue) (key : text) (default : pyvalue) : result pyvalue :=
  match v with
  | PyDict d => Ok (match dict_lookup key d with Some x => x | None => default end)
  | _ => Raise (mk_exc AttributeError
                  (quoted (type_name v) ++ lit " object has no attribute 'get'"))
  end.

(** [len(v)] *)
Definition py_len (v : pyvalue) : result nat :=
  match v with
  | PyStr s => Ok (length s)
  | PyList l => Ok (length l)
  | PyDict d => Ok (length d)
  | _ => Raise (mk_exc TypeError
                  (lit "object of type " ++ quoted (type_name v) ++ lit " has no len()"))
  end.

(** [v[0]] *)
Definition py_getitem_0 (v : pyvalue) : result pyvalue :=
  match v with
  | PyStr (c :: _) => Ok (PyStr [c])
  | PyStr [] => Raise (mk_exc IndexError (lit "string index out of range"))
  | PyList (x :: _) => Ok x
  | PyList [] => Raise (mk_exc IndexError (lit "list index out of range"))
  | PyDict _ => Raise (mk_exc KeyError (lit "0"))
  | _ => Raise (mk_exc TypeError
                  (quoted (type_name v) ++ lit " object is not subscriptable"))
  end.

(** [v[key]] for a string [key]; the [KeyError] shows the key between
    quotes, which is its [repr] for the keys the source uses. *)
Definition py_getitem (v : pyvalue) (key : text) : result pyvalue :=
  match v with
  | PyDict d =>
    match dict_lookup key d with
    | Some x => Ok x
    | None => Raise (mk_exc KeyError (quoted key))
    end
  | PyStr _ => Raise (mk_exc TypeError (lit "string indices must be integers, not 'str'"))
  | PyList _ =>
    Raise (mk_exc TypeError (lit "list indices must be integers or slices, not str"))
  | _ => Raise (mk_exc TypeError
                  (quoted (type_name v) ++ lit " object is not subscriptable"))
  end.

(** [key in v] for a string [key] *)
Definition py_contains (key : text) (v : pyvalue) : result bool :=
  match v with
  | PyDict d => Ok (match dict_lookup key d with Some _ => true | None => false end)
  | PyList l => Ok (existsb (eq_str key) l)
  | PyStr s => Ok (contains key s)
  | _ => Raise (mk_exc TypeError
                  (lit "argument of type " ++ quoted (type_name v)
                   ++ lit " is not iterable"))
  end.

(** ** [json.loads]

    The scanner of CPython's [json] module on a [str]: JSON with the
    extensions [NaN], [Infinity] and [-Infinity], strict strings, the last
    binding of a repeated key winning. Integers longer than 4300 digits
    raise [ValueError], as [int] does since 3.11. The position that
    [JSONDecodeError] reports is not modelled: no handler of the source
    looks at it. The interpreter's recursion limit is not modelled either:
    nesting is as deep as the input makes it. *)

Inductive presult (A : Type) : Type :=
  | POk (a : A) (rest : text)
  | PErr (e : py_exc)
  | PFuel.
Arguments POk {A} a rest.
Arguments PErr {A} e.
Arguments PFuel {A}.

Definition decode_error (msg : string) : py_exc := mk_exc JSONDecodeError (lit msg).

Definition is_json_ws (c : N) : bool :=
  (c =? 32) || (c =? 9) || (c =? 10) || (c =? 13).

Fixpoint skip_ws (s : text) : text :=
  match s with
  | [] => []
  | c :: r => if is_json_ws c then skip_ws r else s
  end.

Definition is_digit (c : N) : bool := (48 <=? c) && (c <=? 57).

Definition hex_digit (c : N) : option N :=
  if is_digit c then Some (c - 48)
  else if (97 <=? c) && (c <=? 102) then Some (c - 87)
  else if (65 <=? c) && (c <=? 70) then Some (c - 55)
  else None.

Definition hex4 (a b c d : N) : option N :=
  match hex_digit a, hex_digit b, hex_digit c, hex_digit d with
  | Some x, Some y, Some z, Some w => Some (((x * 16 + y) * 16 + z) * 16 + w)
  | _, _, _, _ => None
  end.

Definition is_high_surrogate (u : N) : bool := (0xD800 <=? u) && (u <=? 0xDBFF).
Definition is_low_surrogate (u : N) : bool := (0xDC00 <=? u) && (u <=? 0xDFFF).
Definition join_surrogates (hi lo : N) : N :=
  0x10000 + N.lor (N.shiftl (hi - 0xD800) 10) (lo - 0xDC00).

(** The single-character escapes of a JSON string. *)
Definition backslash (c : N) : option N :=
  if c =? QUOTE then Some QUOTE
  else if c =? BACKSLASH then Some BACKSLASH
  else if c =? chr "/" then Some (chr "/")
  else if c =? chr "b" then Some 8
  else if c =? chr "f" then Some 12
  else if c =? chr "n" then Some 10
  else if c =? chr "r" then Some 13
  else if c =? chr "t" then Some 9
  else None.

(** [scanstring]: the input starts just after the opening quote; [acc]
    holds the characters read so far, last first. *)
Fixpoint scanstring (s : text) (acc : text) : option (text * text) :=
  match s with
  | [] => None
  | c :: r =>
    if c =? QUOTE then Some (rev acc, r)
    else if c =? BACKSLASH then
      match r with
      | [] => None
      | esc :: r1 =>
        if esc =? chr "u" then
          match r1 with
          | h1 :: h2 :: h3 :: h4 :: r2 =>
            match hex4 h1 h2 h3 h4 with
            | None => None
            | Some u =>
              if is_high_surrogate u then
                match r2 with
                | b :: x :: g1 :: g2 :: g3 :: g4 :: r3 =>
                  if (b =? BACKSLASH) && (x =? chr "u") then
                    match hex4 g1 g2 g3 g4 with
                    | None => None
                    | Some u2 =>
                      if is_low_surrogate u2
                      then scanstring r3 (join_surrogates u u2 :: acc)
                      else scanstring r2 (u :: acc)
                    end
                  else scanstring r2 (u :: acc)
                | _ => scanstring r2 (u :: acc)
                end
              else scanstring r2 (u :: acc)
            end
          | _ => None
          end
        else
          match backslash esc with
          | Some d => scanstring r1 (d :: acc)
          | None => None
          end
      end
    else if c <? 0x20 then None
    else scanstring r (c :: acc)
  end.

Fixpoint take_digits (s : text) : text * text :=
  match s with
  | [] => ([], [])
  | c :: r =>
    if is_digit c then let '(d, r') := take_digits r in (c :: d, r')
    else ([], s)
  end.

(** The value of a run of decimal digits. *)
Definition digits_value (d : text) : Z :=
  fold_left (fun acc c => (acc * 10 + Z.of_N (c - 48))%Z) d 0%Z.

Definition MAX_STR_DIGITS : nat := 4300.

Definition int_too_long (n : nat) : py_exc :=
  mk_exc ValueError
    (lit "Exceeds the limit (4300 digits) for integer string conversion: value has "
     ++ str_of_int (Z.of_nat n)
     ++ lit " digits; use sys.set_int_max_str_digits() to increase the limit").

(** A number at the head of [s]: integer part, optional fraction, optional
    exponent; [None] when [s] does not start with one. *)
Definition match_number (s : text) : option (result pyvalue * text) :=
  let '(neg, s1) :=
    match s with
    | c :: r => if c =? chr "-" then (true, r) else (false, s)
    | [] => (false, s)
    end in
  match s1 with
  | [] => None
  | c :: r =>
    if negb (is_digit c) then None
    else
      let '(ipart, s2) :=
        if c =? chr "0" then ([c], r)
        else let '(d, r') := take_digits r in (c :: d, r') in
      let '(frac, s3) :=
        match s2 with
        | dot :: d1 :: r' =>
          if (dot =? chr ".") && is_digit d1
          then let '(d, r'') := take_digits (d1 :: r') in (Some d, r'')
          else (None, s2)
        | _ => (None, s2)
        end in
      let '(exp, s4) :=
        match s3 with
        | e :: r3 =>
          if (e =? chr "e") || (e =? chr "E") then
            let '(eneg, r4) :=
              match r3 with
              | sg :: r4 =>
                if sg =? chr "-" then (true, r4)
                else if sg =? chr "+" then (false, r4)
                else (false, r3)
              | [] => (false, r3)
              end in
            let '(d, r5) := take_digits r4 in
            match d with
            | [] => (None, s3)
            | _ => (Some (if eneg then (- digits_value d)%Z else digits_value d), r5)
            end
          else (None, s3)
        | [] => (None, s3)
        end in
      let sign (z : Z) : Z := if neg then (- z)%Z else z in
      match frac, exp with
      | None, None =>
        if (MAX_STR_DIGITS <? length ipart)%nat
        then Some (Raise (int_too_long (length ipart)), s4)
        else Some (Ok (PyInt (sign (digits_value ipart))), s4)
      | _, _ =>
        let fd := match frac with Some d => d | None => [] end in
        let ex := match exp with Some z => z | None => 0%Z end in
        Some (Ok (PyFloat (sign (digits_value (ipart ++ fd)))
                    (ex - Z.of_nat (length fd))), s4)
      end
  end.

(** [scan_once] with the object and array loops it calls. Of two calls in
    a row one at least consumes a character, so [fuel] above twice the
    length of the input is never used up ([json_loads_fuel_suffices]). *)
Fixpoint scan_once (fuel : nat) (s : text) {struct fuel} : presult pyvalue :=
  match fuel with
  | O => PFuel
  | S fuel' =>
    match s with
    | [] => PErr (decode_error "Expecting value")
    | c :: r =>
      if c =? QUOTE then
        match scanstring r [] with
        | Some (str, rest) => POk (PyStr str) rest
        | None => PErr (decode_error "Invalid string")
        end
      else if c =? chr "{" then
        match skip_ws r with
        | c' :: r' =>
          if c' =? chr "}" then POk (PyDict []) r'
          else parse_members fuel' (c' :: r') []
        | [] => parse_members fuel' [] []
        end
      else if c =? chr "[" then
        match skip_ws r with
        | c' :: r' =>
          if c' =? chr "]" then POk (PyList []) r'
          else parse_elements fuel' (c' :: r') []
        | [] => parse_elements fuel' [] []
        end
      else if startswith (lit "null") s then POk PyNone (skipn 4 s)
      else if startswith (lit "true") s then POk (PyBool true) (skipn 4 s)
      else if startswith (lit "false") s then POk (PyBool false) (skipn 5 s)
      else if startswith (lit "NaN") s then POk PyNaN (skipn 3 s)
      else if startswith (lit "Infinity") s then POk (PyInf false) (skipn 8 s)
      else if startswith (lit "-Infinity") s then POk (PyInf true) (skipn 9 s)
      else
        match match_number s with
        | Some (Ok v, rest) => POk v rest
        | Some (Raise e, _) => PErr e
        | None => PErr (decode_error "Expecting value")
        end
    end
  end

with parse_members (fuel : nat) (s : text) (pairs : list (text * pyvalue))
  {struct fuel} : presult pyvalue :=
  match fuel with
  | O => PFuel
  | S fuel' =>
    match s with
    | c :: r =>
      if negb (c =? QUOTE)
      then PErr (decode_error "Expecting property name enclosed in double quotes")
      else
        match scanstring r [] with
        | None => PErr (decode_error "Invalid string")
        | Some (key, r1) =>
          match skip_ws r1 with
          | colon :: r2 =>
            if negb (colon =? chr ":")
            then PErr (decode_error "Expecting ':' delimiter")
            else
              match scan_once fuel' (skip_ws r2) with
              | POk v r3 =>
                let pairs' := pairs ++ [(key, v)] in
                match skip_ws r3 with
                | d :: r4 =>
                  if d =? chr "}" then POk (PyDict (dict_of_pairs pairs')) r4
                  else if d =? chr ","
                  then parse_members fuel' (skip_ws r4) pairs'
                  else PErr (decode_error "Expecting ',' delimiter")
                | [] => PErr (decode_error "Expecting ',' delimiter")
                end
              | PErr e => PErr e
              | PFuel => PFuel
              end
          | [] => PErr (decode_error "Expecting ':' delimiter")
          end
        end
    | [] => PErr (decode_error "Expecting property name enclosed in double quotes")
    end
  end

with parse_elements (fuel : nat) (s : text) (values : list pyvalue)
  {struct fuel} : presult pyvalue :=
  match fuel with
  | O => PFuel
  | S fuel' =>
    match scan_once fuel' s with
    | POk v r1 =>
      let values' := values ++ [v] in
      match skip_ws r1 with
      | d :: r2 =>
        if d =? chr "]" then POk (PyList values') r2
        else if d =? chr ","
        then parse_elements fuel' (skip_ws r2) values'
        else PErr (decode_error "Expecting ',' delimiter")
      | [] => PErr (decode_error "Expecting ',' delimiter")
      end
    | PErr e => PErr e
    | PFuel => PFuel
    end
  end.

Definition BOM : N := 0xFEFF.

(** [json.loads(s)] for a [str]. *)
Definition json_loads (s : text) : result pyvalue :=
  if startswith [BOM] s then Raise (decode_error "Unexpected UTF-8 BOM (decode using utf-8-sig)")
  else
    match scan_once (2 * length s + 2) (skip_ws s) with
    | POk v rest =>
      match skip_ws rest with
      | [] => Ok v
      | _ :: _ => Raise (decode_error "Extra data")
      end
    | PErr e => Raise e
    | PFuel => Raise (mk_exc RecursionError (lit "maximum recursion depth exceeded"))
    end.

(** ** Async generators

    A generator run to its end: the values it yielded, in order, and how it
    ended. [Raise e] after some values means the exception left the
    generator after those values had been delivered. *)

Definition gen (A : Type) : Type := (list pyvalue * result A)%type.

Definition gret {A : Type} (a : A) : gen A := ([], Ok a).

Definition gbind {A B : Type} (m : gen A) (f : A -> gen B) : gen B :=
  match m with
  | (out, Ok a) => let '(out', r) := f a in (out ++ out', r)
  | (out, Raise e) => (out, Raise e)
  end.

Definition yield (v : pyvalue) : gen unit := ([v], Ok tt).

Definition raise {A : Type} (e : py_exc) : gen A := ([], Raise e).

Definition lift {A : Type} (r : result A) : gen A := ([], r).

(** [try: m  except Exception as e: h e] *)
Definition try_except {A : Type} (m : gen A) (h : py_exc -> gen A) : gen A :=
  match m with
  | (out, Raise e) => let '(out', r) := h e in (out ++ out', r)
  | (out, Ok a) => (out, Ok a)
  end.

Declare Scope gen_scope.
Delimit Scope gen_scope with gen.
Notation "'let*' x ':=' m 'in' k" := (gbind m (fun x => k))
  (at level 10, x name, m at level 100, k at level 200) : gen_scope.
Notation "'do' m 'then' k" := (gbind m (fun _ => k))
  (at level 10, m at level 100, k at level 200) : gen_scope.
Local Open Scope gen_scope.

Fixpoint for_values (vs : list pyvalue) (body : pyvalue -> gen unit) : gen unit :=
  match vs with
  | [] => gret tt
  | v :: vs' => do body v then for_values vs' body
  end.

(** [async for x in g: body x] *)
Definition async_for (g : gen unit) (body : pyvalue -> gen unit) : gen unit :=
  do for_values (fst g) body then lift (snd g).

(** ** The event decoder, lines 148-190 *)

Definition DATA_PREFIX : text := lit "data: ".
Definition DONE : text := lit "[DONE]".

(** Lines 169-182, the body of the inner [try]. *)
Definition decode_event (data_str : text) : gen unit :=
  let* data_obj := lift (json_loads data_str) in
  let* choices := lift (py_get data_obj (lit "choices") PyNone) in
  if negb (truthy choices) then gret tt
  else
    let* choices := lift (py_getitem data_obj (lit "choices")) in
    let* n := lift (py_len choices) in
    if negb (0 <? n)%nat then gret tt
    else
      let* choices := lift (py_getitem data_obj (lit "choices")) in
      let* choice := lift (py_getitem_0 choices) in
      let* delta := lift (py_get choice (lit "delta") (PyDict [])) in
      do (if negb (truthy delta) then gret tt
       else
         let* has_content := lift (py_contains (lit "content") delta) in
         if negb has_content then gret tt
         else
           let* content := lift (py_getitem delta (lit "content")) in
           if truthy content then yield content else gret tt) then
      let* choices := lift (py_getitem data_obj (lit "choices")) in
      let* choice := lift (py_getitem_0 choices) in
      let* finish_reason := lift (py_get choice (lit "finish_reason") PyNone) in
      (* if finish_reason: pass *)
      gret tt.

(** Lines 158-187, the body of [for line in lines[:-1]]. The [print] in the
    handler writes to standard output only. *)
Definition process_line (line : text) : gen unit :=
  let line := strip line in
  match line with
  | [] => gret tt
  | _ :: _ =>
    if startswith DATA_PREFIX line then
      let data_str := skipn 6 line in
      if text_eqb data_str DONE then gret tt
      else
        try_except (decode_event data_str)
          (fun e => if is_JSONDecodeError e then gret tt else raise e)
    else gret tt
  end.

Fixpoint for_lines (lines : list text) : gen unit :=
  match lines with
  | [] => gret tt
  | line :: rest => do process_line line then for_lines rest
  end.

(** Lines 151-190: [async for chunk in response.content.iter_any()], started
    with the given buffer; returns the buffer left when the chunks end. *)
Fixpoint for_chunks (chunks : list bytes) (buffer : text) : gen text :=
  match chunks with
  | [] => gret buffer
  | chunk :: rest =>
    match chunk with
    | [] => for_chunks rest buffer
    | _ :: _ =>
      let buffer := buffer ++ decode_ignore chunk in
      let lines := split_nl buffer in
      do for_lines (removelast lines) then
      for_chunks rest (List.last lines [])
    end
  end.

(** ** Sessions and the network

    [aiohttp.ClientSession] objects live in a store; the translator and
    any caller that was handed a session refer to it by location. The
    remote endpoint is a function from the request to what the client
    library reports for it. *)

Record ClientSession : Type := mk_session {
  limit : nat;                       (* TCPConnector(limit=...) *)
  ttl_dns_cache : nat;               (* TCPConnector(ttl_dns_cache=...) *)
  session_timeout : nat;             (* ClientTimeout(total=...) *)
  session_headers : list (text * text);
  closed : bool
}.

Record Request : Type := mk_request {
  req_session : nat;
  req_url : text;
  req_headers : list (text * text);
  req_json : pyvalue
}.

(** What [async with session.post(...) as response] makes available. *)
Record ClientResponse : Type := mk_response {
  status : Z;
  resp_text : result text;           (* await response.text() *)
  resp_json : result pyvalue;        (* await response.json() *)
  resp_chunks : list bytes;          (* response.content.iter_any() *)
  resp_chunks_end : option py_exc    (* how the body ends: None is end of stream *)
}.

Record World : Type := mk_world {
  sessions : gmap nat ClientSession;
  requests : list Request;           (* requests issued so far, oldest first *)
  server : Request -> result ClientResponse
}.

Record DeepSeekTranslator : Type := mk_translator {
  api_key : text;
  base_url : text;
  model : text;
  max_tokens : Z;
  pm_to_dev_prompt : text -> text;   (* PM_TO_DEV_PROMPT.format(input=...) *)
  dev_to_pm_prompt : text -> text;   (* DEV_TO_PM_PROMPT.format(input=...) *)
  timeout : nat;
  _session : option nat
}.

Definition set_session (self : DeepSeekTranslator) (s : option nat)
  : DeepSeekTranslator :=
  mk_translator (api_key self) (base_url self) (model self) (max_tokens self)
    (pm_to_dev_prompt self) (dev_to_pm_prompt self) (timeout self) s.

(** [session.closed]; a location that holds no session counts as closed. *)
Definition is_closed (w : World) (l : nat) : bool :=
  match sessions w !! l with
  | Some s => closed s
  | None => true
  end.

(** [aiohttp.ClientSession(connector=..., timeout=..., headers=...)] *)
Definition new_session (w : World) (s : ClientSession) : nat * World :=
  let l := fresh (dom (sessions w)) in
  (l, mk_world (<[l := s]> (sessions w)) (requests w) (server w)).

(** [await session.close()] *)
Definition session_close (w : World) (l : nat) : World :=
  match sessions w !! l with
  | Some s =>
    mk_world
      (<[l := mk_session (limit s) (ttl_dns_cache s) (session_timeout s)
                (session_headers s) true]> (sessions w))
      (requests w) (server w)
  | None => w
  end.

(** [session.post(url, headers=headers, json=data)]: a closed session
    refuses; an open one sends the request. *)
Definition session_post (w : World) (l : nat) (url : text)
    (headers : list (text * text)) (data : pyvalue)
  : result ClientResponse * World :=
  if is_closed w l
  then (Raise (mk_exc OtherException (lit "Session is closed")), w)
  else
    let r := mk_request l url headers data in
    (server w r, mk_world (sessions w) (requests w ++ [r]) (server w)).

(** Lines 42-56. *)
Definition get_session (self : DeepSeekTranslator) (w : World)
  : nat * DeepSeekTranslator * World :=
  match _session self with
  | Some l =>
    if is_closed w l then
      let '(l', w') :=
        new_session w
          (mk_session 10 300 (timeout self)
             [(lit "User-Agent", lit "CommunicationTranslator/1.0")] false) in
      (l', set_session self (Some l'), w')
    else (l, self, w)
  | None =>
    let '(l', w') :=
      new_session w
        (mk_session 10 300 (timeout self)
           [(lit "User-Agent", lit "CommunicationTranslator/1.0")] false) in
    (l', set_session self (Some l'), w')
  end.

(** Lines 58-62. *)
Definition close (self : DeepSeekTranslator) (w : World)
  : DeepSeekTranslator * World :=
  match _session self with
  | Some l =>
    if negb (is_closed w l)
    then (set_session self None, session_close w l)
    else (self, w)
  | None => (self, w)
  end.

(** ** The request builder *)

Definition str_item (k : string) (v : text) : text * pyvalue := (lit k, PyStr v).

(** Lines 64-80; [temperature] keeps its default 0.7. *)
Definition _create_request_data (self : DeepSeekTranslator) (messages : pyvalue)
    (stream : bool) : pyvalue :=
  PyDict [
    str_item "model" (model self);
    (lit "messages", messages);
    (lit "stream", PyBool stream);
    (lit "temperature", PyFloat 7 (-1));
    (lit "max_tokens", PyInt (max_tokens self));
    (lit "top_p", PyFloat 9 (-1));
    (lit "frequency_penalty", PyFloat 0 (-1));
    (lit "presence_penalty", PyFloat 0 (-1))
  ].

(** A multi-line literal, one element per source line. *)
Fixpoint join_lines (ls : list string) : text :=
  match ls with
  | [] => []
  | [l] => lit l
  | l :: ls' => lit l ++ [NL] ++ join_lines ls'
  end.

Definition PM_TO_DEV : text := lit "pm-to-dev".
Definition DEV_TO_PM : text := lit "dev-to-pm".

(** Lines 82-112. *)
Definition _create_messages (self : DeepSeekTranslator) (text_ : text)
    (direction : text) : pyvalue :=
  let '(system_content, user_content) :=
    if text_eqb direction PM_TO_DEV then
      (join_lines [
         "你是一位资深技术架构师，擅长将业务需求转化为技术方案。";
         "            ";
         "请确保回复包含以下方面：";
         "1. **技术实现方案** - 具体技术栈、算法、架构设计";
         "2. **数据来源与处理** - 数据采集、清洗、存储方案";
         "3. **性能要求** - 响应时间、并发量、SLA指标";
         "4. **工作量评估** - 人天估算、技术风险点";
         "";
         "使用##标题格式进行结构化回复，让开发人员一目了然。"
       ]%string,
       pm_to_dev_prompt self text_)
    else
      (join_lines [
         "你是一位资深产品经理，擅长将技术方案转化为业务价值。";
         "            ";
         "请确保回复包含以下方面：";
         "1. **用户体验影响** - 对用户使用体验的具体改善";
         "2. **业务增长空间** - 能带来的用户增长、收入提升";
         "3. **商业价值** - 成本节省、效率提升、风险降低";
         "";
         "使用通俗易懂的语言，避免技术术语，让产品经理快速理解价值。"
       ]%string,
       dev_to_pm_prompt self text_) in
  PyList [
    PyDict [str_item "role" (lit "system"); str_item "content" system_content];
    PyDict [str_item "role" (lit "user"); str_item "content" user_content]
  ].

(** ** The API call and the two directions *)

Inductive translation : Type :=
  | Stream (g : gen unit)            (* an async generator, run to its end *)
  | Buffered (r : result text).      (* a str, or the exception that escaped *)

(** [sep.join(parts)] with [sep = ""]: every item must be a [str]. *)
Fixpoint join_from (i : nat) (parts : list pyvalue) : result text :=
  match parts with
  | [] => Ok []
  | PyStr s :: rest =>
    match join_from (S i) rest with
    | Ok t => Ok (s ++ t)
    | Raise e => Raise e
    end
  | v :: _ =>
    Raise (mk_exc TypeError
             (lit "sequence item " ++ str_of_int (Z.of_nat i)
              ++ lit ": expected str instance, " ++ type_name v ++ lit " found"))
  end.

Definition str_join (parts : list pyvalue) : result text := join_from 0 parts.

Section Interpreter.

(** [str(v)] for a float, a list or a dict is the interpreter's [repr],
    which is left open. *)
Variable repr_value : pyvalue -> text.

(** [str(v)], as an f-string field renders [v]. *)
Definition py_str (v : pyvalue) : text :=
  match v with
  | PyStr s => s
  | PyNone => lit "None"
  | PyBool true => lit "True"
  | PyBool false => lit "False"
  | PyInt z => str_of_int z
  | _ => repr_value v
  end.

(** Lines 138-143: the error message of a non-200 body, or the default. *)
Definition error_message (error_text : text) (default : pyvalue) : pyvalue :=
  let attempt : result pyvalue :=
    (let! error_json := json_loads error_text in
     let! has_error := py_contains (lit "error") error_json in
     if negb has_error then Ok default
     else
       let! err := py_getitem error_json (lit "error") in
       let! has_message := py_contains (lit "message") err in
       if negb has_message then Ok default
       else
         let! err := py_getitem error_json (lit "error") in
         py_getitem err (lit "message"))%result in
  match attempt with
  | Ok v => v
  | Raise _ => default          (* except: pass *)
  end.

(** Lines 134-146. *)
Definition error_response (response : ClientResponse) : gen unit :=
  let* error_text := lift (resp_text response) in
  let error_msg :=
    PyStr (lit "API错误 (HTTP " ++ str_of_int (status response) ++ lit ")") in
  let error_msg := error_message error_text error_msg in
  yield (PyStr (lit "【系统错误】" ++ py_str error_msg)).

(** Lines 148-190. *)
Definition stream_response (response : ClientResponse) : gen unit :=
  let* buffer := for_chunks (resp_chunks response) [] in
  match resp_chunks_end response with
  | Some e => raise e
  | None => gret tt
  end.

(** Lines 191-201. *)
Definition plain_response (response : ClientResponse) : gen unit :=
  let* result := lift (resp_json response) in
  let* choices := lift (py_get result (lit "choices") PyNone) in
  if negb (truthy choices) then gret tt
  else
    let* choices := lift (py_getitem result (lit "choices")) in
    let* n := lift (py_len choices) in
    if negb (0 <? n)%nat then gret tt
    else
      let* choices := lift (py_getitem result (lit "choices")) in
      let* choice := lift (py_getitem_0 choices) in
      let* message := lift (py_get choice (lit "message") PyNone) in
      if negb (truthy message) then gret tt
      else
        let* choices := lift (py_getitem result (lit "choices")) in
        let* choice := lift (py_getitem_0 choices) in
        let* message := lift (py_getitem choice (lit "message")) in
        let* content := lift (py_get message (lit "content") PyNone) in
        if negb (truthy content) then gret tt
        else
          let* choices := lift (py_getitem result (lit "choices")) in
          let* choice := lift (py_getitem_0 choices) in
          let* message := lift (py_getitem choice (lit "message")) in
          let* content := lift (py_getitem message (lit "content")) in
          if truthy content then yield content else gret tt.

(** Lines 203-211: the handlers, tried in order. *)
Definition handle_exception (e : py_exc) : gen unit :=
  if is_ClientConnectorError e then
    do yield (PyStr (lit "【网络错误】无法连接到DeepSeek API: " ++ exc_str e)) then
    yield (PyStr (join_lines [
      "请检查：";
      "1. 网络连接是否正常";
      "2. API地址是否正确";
      "3. 防火墙设置"
    ]%string))
  else if is_ClientError e then
    yield (PyStr (lit "【HTTP错误】请求失败: " ++ exc_str e))
  else if is_TimeoutError e then
    yield (PyStr (lit "【超时错误】API请求超时，请稍后重试"))
  else
    yield (PyStr (lit "【未知错误】: " ++ exc_str e)).

(** Lines 132-201, the body of the outer [try]. *)
Definition handle_response (posted : result ClientResponse) (stream : bool)
  : gen unit :=
  let* response := lift posted in
  if negb (status response =? 200)%Z then error_response response
  else if stream then stream_response response
  else plain_response response.

(** Lines 114-211. *)
Definition _call_deepseek_api (self : DeepSeekTranslator) (w : World)
    (messages : pyvalue) (stream : bool)
  : DeepSeekTranslator * World * gen unit :=
  let '(session, self, w) := get_session self w in
  let url := base_url self ++ lit "/chat/completions" in
  let headers := [
    (lit "Content-Type", lit "application/json");
    (lit "Authorization", lit "Bearer " ++ api_key self);
    (lit "Accept", if stream then lit "text/event-stream" else lit "application/json")
  ] in
  let data := _create_request_data self messages stream in
  let '(posted, w) := session_post w session url headers data in
  (self, w, try_except (handle_response posted stream) handle_exception).

(** [not text or not text.strip()] *)
Definition is_blank (text_ : text) : bool :=
  match text_ with
  | [] => true
  | _ :: _ => match strip text_ with [] => true | _ :: _ => false end
  end.

(** Lines 213-221. *)
Definition translate_pm_to_dev_stream (self : DeepSeekTranslator) (w : World)
    (text_ : text) : DeepSeekTranslator * World * gen unit :=
  if is_blank text_ then (self, w, yield (PyStr (lit "请输入有效的产品需求")))
  else
    let messages := _create_messages self text_ PM_TO_DEV in
    let '(self, w, chunks) := _call_deepseek_api self w messages true in
    (self, w, async_for chunks yield).

(** Lines 223-231. *)
Definition translate_dev_to_pm_stream (self : DeepSeekTranslator) (w : World)
    (text_ : text) : DeepSeekTranslator * World * gen unit :=
  if is_blank text_ then (self, w, yield (PyStr (lit "请输入有效的技术方案")))
  else
    let messages := _create_messages self text_ DEV_TO_PM in
    let '(self, w, chunks) := _call_deepseek_api self w messages true in
    (self, w, async_for chunks yield).

(** [content_parts = []; async for chunk in g: content_parts.append(chunk);
    return "".join(content_parts)] *)
Definition collect (g : gen unit) : result text :=
  let content_parts := fold_left (fun parts chunk => parts ++ [chunk]) (fst g) [] in
  match snd g with
  | Raise e => Raise e
  | Ok _ => str_join content_parts
  end.

(** Lines 233-241. *)
Definition translate_pm_to_dev (self : DeepSeekTranslator) (w : World)
    (text_ : text) (stream : bool) : DeepSeekTranslator * World * translation :=
  let '(self, w, g) := translate_pm_to_dev_stream self w text_ in
  if stream then (self, w, Stream g) else (self, w, Buffered (collect g)).

(** Lines 243-251. *)
Definition translate_dev_to_pm (self : DeepSeekTranslator) (w : World)
    (text_ : text) (stream : bool) : DeepSeekTranslator * World * translation :=
  let '(self, w, g) := translate_dev_to_pm_stream self w text_ in
  if stream then (self, w, Stream g) else (self, w, Buffered (collect g)).

End Interpreter.

(** ** Notions of the specification

    What the statements below speak of: the lines of a text, the text a
    list of chunks amounts to, well-formed input, and the readings the
    specification gives of an error body, of a failure and of the buffered
    result. *)

(** The lines of a text that a newline has ended, and what follows the last
    newline. *)
Definition complete_lines (t : text) : list text := removelast (split_nl t).
Definition pending (t : text) : text := List.last (split_nl t) [].

(** All of some chunks as they reach the buffer. *)
Definition decoded (chunks : list bytes) : text :=
  concat (map decode_ignore chunks).

(** Each line followed by its newline. *)
Definition unlines (lines : list text) : text :=
  concat (map (fun l => l ++ [NL]) lines).


(** The fragments the specification gives for each kind of failure. *)
Definition diagnostics (e : py_exc) : list pyvalue :=
  match exc_type e with
  | ClientConnectorError =>
    [PyStr (lit "【网络错误】无法连接到DeepSeek API: " ++ exc_str e);
     PyStr (lit "请检查：" ++ [NL] ++ lit "1. 网络连接是否正常" ++ [NL]
            ++ lit "2. API地址是否正确" ++ [NL] ++ lit "3. 防火墙设置")]
  | ClientError => [PyStr (lit "【HTTP错误】请求失败: " ++ exc_str e)]
  | TimeoutError => [PyStr (lit "【超时错误】API请求超时，请稍后重试")]
  | _ => [PyStr (lit "【未知错误】: " ++ exc_str e)]
  end.

(** The fragments put one after the other, as the specification words the
    buffered result; defined when every fragment is a string. *)
Definition concatenation (fragments : list pyvalue) : option text :=
  fold_right
    (fun v acc =>
       match v, acc with
       | PyStr s, Some t => Some (s ++ t)
       | _, _ => None
       end)
    (Some []) fragments.

(** What a call hands back to its caller, if it returns. *)
Definition returned (r : result text) : option text :=
  match r with
  | Ok t => Some t
  | Raise _ => None
  end.

(** The two ways [json.loads] fails. *)
Definition decode_failure (e : py_exc) : Prop :=
  exc_type e = JSONDecodeError \/ exc_type e = ValueError.

(** The bytes are well-formed UTF-8 from the first to the last. *)
Definition valid_utf8 (bs : bytes) : bool := negb (existsb is_bad (utf8_scan bs)).

(** The number of undecodable runs in a chunk. *)
Definition bad_runs (bs : bytes) : nat := length (filter is_bad (utf8_scan bs)).

(** A well-formed event stream as the specification words it: well-formed
    UTF-8 whose lines are [data: ] events carrying a JSON object, the last
    line being [data: [DONE]], every line ended by a newline. *)
Definition is_event_line (line : text) : bool :=
  startswith DATA_PREFIX line
  && match json_loads (skipn 6 line) with
     | Ok (PyDict _) => true
     | _ => false
     end.

Definition well_formed_sse (stream : bytes) : bool :=
  match bytes_decode Strict stream with
  | None => false
  | Some t =>
    match pending t, rev (complete_lines t) with
    | [], final :: events =>
      text_eqb final (DATA_PREFIX ++ DONE) && forallb is_event_line events
    | _, _ => false
    end
  end.

(** ** Sample data *)

(** The bytes of a literal in which ['] stands for the double quote. *)
Definition sq (s : string) : bytes :=
  map (fun b => if Byte.eqb b "'"%byte then x22 else b) (list_byte_of_string s).

Definition LF : bytes := [x0a].

Definition event_A : bytes := sq "data: {'choices':[{'delta':{'content':'A'}}]}".
Definition event_B : bytes := sq "data: {'choices':[{'delta':{'content':'B'}}]}".
Definition event_done : bytes := sq "data: [DONE]".

Definition example_translator : DeepSeekTranslator :=
  mk_translator (lit "sk-test") (lit "https://api.deepseek.com")
    (lit "deepseek-chat") 2000 (fun t => t) (fun t => t) 60 None.

Definition example_world (srv : Request -> result ClientResponse) : World :=
  mk_world ∅ [] srv.

Definition no_json : result pyvalue :=
  Raise (decode_error "Expecting value").


(** A server whose every response is an empty 200 without a JSON body. *)
Definition no_json_response : result ClientResponse :=
  Ok (mk_response 200 (Ok []) no_json [] None).

(** One event carrying two Chinese characters, then the end marker. *)
Definition greeting_stream : bytes :=
  sq "data: {'choices':[{'delta':{'content':'你好'}}]}" ++ LF ++ event_done ++ LF.

(** ** Construction, lines 19-40

    The environment is what [os.getenv] sees once [load_dotenv()] has run;
    the two prompt templates are those of [app.prompts], each as the
    function [.format(input=...)] makes of it. *)

(** The code points of the digit zero in each run of ten decimal digits
    that [int] accepts (Unicode 14). *)
Definition DECIMAL_ZEROS : list N :=
  [0x30; 0x660; 0x6F0; 0x7C0; 0x966; 0x9E6; 0xA66; 0xAE6; 0xB66; 0xBE6;
   0xC66; 0xCE6; 0xD66; 0xDE6; 0xE50; 0xED0; 0xF20; 0x1040; 0x1090; 0x17E0;
   0x1810; 0x1946; 0x19D0; 0x1A80; 0x1A90; 0x1B50; 0x1BB0; 0x1C40; 0x1C50;
   0xA620; 0xA8D0; 0xA900; 0xA9D0; 0xA9F0; 0xAA50; 0xABF0; 0xFF10; 0x104A0;
   0x10D30; 0x11066; 0x110F0; 0x11136; 0x111D0; 0x112F0; 0x11450; 0x114D0;
   0x11650; 0x116C0; 0x11730; 0x118E0; 0x11950; 0x11C50; 0x11D50; 0x11DA0;
   0x16A60; 0x16AC0; 0x16B50; 0x1D7CE; 0x1D7D8; 0x1D7E2; 0x1D7EC; 0x1D7F6;
   0x1E140; 0x1E2F0; 0x1E950; 0x1FBF0].

(** [Py_UNICODE_TODECIMAL] *)
Definition decimal_value (c : N) : option N :=
  match find (fun z => (z <=? c) && (c <? z + 10)) DECIMAL_ZEROS with
  | Some z => Some (c - z)
  | None => None
  end.

(** The blanks [int] skips: the C locale's among ASCII, Unicode's beyond. *)
Definition is_int_space (c : N) : bool :=
  if c <? 128 then ((9 <=? c) && (c <=? 13)) || (c =? 32) else is_space c.

Fixpoint skip_int_space (s : text) : text :=
  match s with
  | [] => []
  | c :: r => if is_int_space c then skip_int_space r else s
  end.

(** The digits at the head of [s], single underscores between them
    allowed; [None] for a doubled or a trailing underscore. The digits
    come last first. *)
Fixpoint scan_int_digits (s : text) (after_underscore : bool) (acc : list N)
  : option (list N * text) :=
  match s with
  | [] => if after_underscore then None else Some (acc, [])
  | c :: r =>
    if c =? chr "_" then
      if after_underscore then None else scan_int_digits r true acc
    else
      match decimal_value c with
      | Some d => scan_int_digits r false (d :: acc)
      | None => if after_underscore then None else Some (acc, s)
      end
  end.

(** The number a list of digits, last first, stands for. *)
Fixpoint digits_number (rev_digits : list N) : Z :=
  match rev_digits with
  | [] => 0%Z
  | d :: more => (Z.of_N d + 10 * digits_number more)%Z
  end.

Section Construction.

(** [repr(v)], the interpreter's, left open as in [Interpreter]. *)
Variable repr_value : pyvalue -> text.

(** [int(s)] for a [str]. *)
Definition py_int (s : text) : result Z :=
  let invalid : result Z :=
    Raise (mk_exc ValueError
             (lit "invalid literal for int() with base 10: "
              ++ firstn 200 (repr_value (PyStr s)))) in
  let s1 := skip_int_space s in
  let '(negative, s2) :=
    match s1 with
    | c :: r =>
      if c =? chr "+" then (false, r)
      else if c =? chr "-" then (true, r)
      else (false, s1)
    | [] => (false, s1)
    end in
  match s2 with
  | [] => invalid
  | c :: _ =>
    if c =? chr "_" then invalid
    else
      match scan_int_digits s2 false [] with
      | None => invalid
      | Some (rev_digits, rest) =>
        if (MAX_STR_DIGITS <? length rev_digits)%nat
        then Raise (int_too_long (length rev_digits))
        else
          match rev_digits, skip_int_space rest with
          | _ :: _, [] =>
            Ok (if negative then (- digits_number rev_digits)%Z
                else digits_number rev_digits)
          | _, _ => invalid
          end
      end
  end.

(** [os.getenv(name)] *)
Definition getenv (environ : text -> option text) (name : string) : option text :=
  environ (lit name).

(** [os.getenv(name, default)] *)
Definition getenv_or (environ : text -> option text) (name : string)
    (default : text) : text :=
  match environ (lit name) with
  | Some v => v
  | None => default
  end.

(** [DeepSeekTranslator()], lines 19-40. *)
Definition __init__ (environ : text -> option text)
    (PM_TO_DEV_PROMPT DEV_TO_PM_PROMPT : text -> text)
  : result DeepSeekTranslator :=
  let api_key := getenv environ "DEEPSEEK_API_KEY" in
  let base_url := getenv_or environ "DEEPSEEK_API_BASE" (lit "https://api.deepseek.com") in
  let model := getenv_or environ "DEEPSEEK_MODEL" (lit "deepseek-chat") in
  (let! max_tokens := py_int (getenv_or environ "DEEPSEEK_MAX_TOKENS" (lit "2000")) in
   match api_key with
   | None | Some [] =>
     Raise (mk_exc ValueError (lit "请设置DEEPSEEK_API_KEY环境变量"))
   | Some key =>
     Ok (mk_translator key base_url model max_tokens
           PM_TO_DEV_PROMPT DEV_TO_PM_PROMPT 60 None)
   end)%result.

End Construction.

(** ** The connectivity test, lines 253-284 *)

(** [v[key] = x] for a string [key] *)
Definition py_setitem (v : pyvalue) (key : text) (x : pyvalue) : result pyvalue :=
  match v with
  | PyDict d => Ok (PyDict (dict_set key x d))
  | PyList _ =>
    Raise (mk_exc TypeError (lit "list indices must be integers or slices, not str"))
  | _ => Raise (mk_exc TypeError
                  (quoted (type_name v) ++ lit " object does not support item assignment"))
  end.

(** Lines 253-284. The [try] covers everything up to the [return]s; the
    [finally] closes the session whatever happened. *)
Definition test_connection (self : DeepSeekTranslator) (w : World)
  : DeepSeekTranslator * World * bool :=
  let test_messages :=
    PyList [
      PyDict [str_item "role" (lit "system"); str_item "content" (lit "你是一个测试助手")];
      PyDict [str_item "role" (lit "user"); str_item "content" (lit "请回复'连接成功'")]
    ] in
  let test_data := _create_request_data self test_messages false in
  match py_setitem test_data (lit "max_tokens") (PyInt 10) with
  | Raise _ => let '(self, w) := close self w in (self, w, false)
  | Ok test_data =>
    let '(session, self, w) := get_session self w in
    let url := base_url self ++ lit "/chat/completions" in
    let headers := [
      (lit "Content-Type", lit "application/json");
      (lit "Authorization", lit "Bearer " ++ api_key self)
    ] in
    let '(posted, w) := session_post w session url headers test_data in
    let attempt : result bool :=
      (let! response := posted in
       if (status response =? 200)%Z then
         let! result := resp_json response in
         Ok true
       else Ok false)%result in
    let answer :=
      match attempt with
      | Ok b => b
      | Raise _ => false          (* except Exception: return False *)
      end in
    let '(self, w) := close self w in   (* finally *)
    (self, w, answer)
  end.

(** The request the test sends on session [l]: the test conversation,
    [stream] off, [max_tokens] 10, and no [Accept] header. *)
Definition test_request (self : DeepSeekTranslator) (l : nat) : Request :=
  mk_request l (base_url self ++ lit "/chat/completions")
    [(lit "Content-Type", lit "application/json");
     (lit "Authorization", lit "Bearer " ++ api_key self)]
    (PyDict [
       (lit "model", PyStr (model self));
       (lit "messages",
        PyList [
          PyDict [(lit "role", PyStr (lit "system"));
                  (lit "content", PyStr (lit "你是一个测试助手"))];
          PyDict [(lit "role", PyStr (lit "user"));
                  (lit "content", PyStr (lit "请回复'连接成功'"))]]);
       (lit "stream", PyBool false);
       (lit "temperature", PyFloat 7 (-1));
       (lit "max_tokens", PyInt 10);
       (lit "top_p", PyFloat 9 (-1));
       (lit "frequency_penalty", PyFloat 0 (-1));
       (lit "presence_penalty", PyFloat 0 (-1))]).

(** Whether a reply passes the test: status 200 and a body that reads as
    JSON. *)
Definition passes_test (posted : result ClientResponse) : bool :=
  match posted with
  | Ok response =>
    (status response =? 200)%Z
    && match resp_json response with Ok _ => true | Raise _ => false end
  | Raise _ => false
  end.

(** ** The module's singleton, lines 286-327 *)

(** The process as the module-level code sees it: its environment, the
    templates of [app.prompts], the global [_translator_instance], and the
    world of sessions and requests. The translator is one object: what a
    method does to it shows in the global. *)
Record App : Type := mk_app {
  environ : text -> option text;
  PM_TO_DEV_PROMPT : text -> text;
  DEV_TO_PM_PROMPT : text -> text;
  _translator_instance : option DeepSeekTranslator;
  world : World
}.

Definition set_instance (app : App) (t : option DeepSeekTranslator) (w : World) : App :=
  mk_app (environ app) (PM_TO_DEV_PROMPT app) (DEV_TO_PM_PROMPT app) t w.

Module ai_engine.
Section Module_level.

Variable repr_value : pyvalue -> text.

(** Lines 289-294. *)
Definition get_translator (app : App) : result DeepSeekTranslator * App :=
  match _translator_instance app with
  | Some translator => (Ok translator, app)
  | None =>
    match __init__ repr_value (environ app) (PM_TO_DEV_PROMPT app)
            (DEV_TO_PM_PROMPT app) with
    | Ok translator => (Ok translator, set_instance app (Some translator) (world app))
    | Raise e => (Raise e, app)
    end
  end.

(** Lines 296-299. *)
Definition translate_pm_to_dev (app : App) (text_ : text) (stream : bool)
  : result translation * App :=
  match get_translator app with
  | (Raise e, app) => (Raise e, app)
  | (Ok translator, app) =>
    let '(translator, w, answer) :=
      translate_pm_to_dev repr_value translator (world app) text_ stream in
    (Ok answer, set_instance app (Some translator) w)
  end.

(** Lines 301-304. *)
Definition translate_dev_to_pm (app : App) (text_ : text) (stream : bool)
  : result translation * App :=
  match get_translator app with
  | (Raise e, app) => (Raise e, app)
  | (Ok translator, app) =>
    let '(translator, w, answer) :=
      translate_dev_to_pm repr_value translator (world app) text_ stream in
    (Ok answer, set_instance app (Some translator) w)
  end.

End Module_level.

(** Lines 306-311. *)
Definition close_translator (app : App) : App :=
  match _translator_instance app with
  | Some translator =>
    let '(_, w) := close translator (world app) in
    set_instance app None w
  | None => app
  end.

(** Lines 314-316. *)
Definition cleanup (app : App) : App := close_translator app.

End ai_engine.

(** ** The web application, [app/main.py] *)

Module main.

(** Lines 33-36. *)
Record TranslationRequest : Type := mk_translation_request {
  text_ : text;
  stream : bool
}.

(** What an endpoint hands to the framework: a streaming response with its
    body run to the end, or a value to serialise. *)
Inductive Response : Type :=
  | StreamingResponse (content : gen unit) (media_type : text)
      (headers : list (text * text))
  | Returned (v : pyvalue).

(** How a call of an endpoint ends: with a response, or with the
    [HTTPException] it raises. *)
Inductive Outcome : Type :=
  | Responds (r : Response)
  | HTTPException (status_code : Z) (detail : text).

Definition STREAM_HEADERS : list (text * text) :=
  [(lit "Cache-Control", lit "no-cache"); (lit "X-Accel-Buffering", lit "no")].

Section Endpoints.

Variable repr_value : pyvalue -> text.

(** Lines 52-60. *)
Definition health_check (app : App) : result pyvalue * App :=
  match ai_engine.get_translator repr_value app with
  | (Raise e, app) => (Raise e, app)
  | (Ok translator, app) =>
    (Ok (PyDict [
           str_item "status" (lit "healthy");
           str_item "model" (model translator);
           str_item "api_base" (base_url translator)
         ]),
     app)
  end.

(** Lines 62-91. In the streaming branch nothing runs before the response is
    returned, so nothing there reaches the handler; the generator then
    constructs or fetches the translator and relays its fragments. *)
Definition translate_product_to_dev (app : App) (request : TranslationRequest)
  : Outcome * App :=
  if stream request then
    (* async def generate_stream() *)
    match ai_engine.get_translator repr_value app with
    | (Raise e, app) =>
      (Responds (StreamingResponse (raise e) (lit "text/event-stream") STREAM_HEADERS),
       app)
    | (Ok translator, app) =>
      let '(translator, w, chunks) :=
        translate_pm_to_dev_stream repr_value translator (world app) (text_ request) in
      (Responds (StreamingResponse (async_for chunks yield)
                   (lit "text/event-stream") STREAM_HEADERS),
       set_instance app (Some translator) w)
    end
  else
    match ai_engine.get_translator repr_value app with
    | (Raise e, app) =>
      (HTTPException 500 (lit "翻译失败: " ++ exc_str e), app)
    | (Ok translator, app) =>
      let '(translator, w, chunks) :=
        translate_pm_to_dev_stream repr_value translator (world app) (text_ request) in
      let app := set_instance app (Some translator) w in
      let result := fold_left (fun parts chunk => parts ++ [chunk]) (fst chunks) [] in
      match snd chunks with
      | Raise e => (HTTPException 500 (lit "翻译失败: " ++ exc_str e), app)
      | Ok _ =>
        match str_join result with
        | Raise e => (HTTPException 500 (lit "翻译失败: " ++ exc_str e), app)
        | Ok translation =>
          (Responds (Returned (PyDict [str_item "translation" translation])), app)
        end
      end
    end.

(** Lines 93-120. As the other direction. *)
Definition translate_dev_to_product (app : App) (request : TranslationRequest)
  : Outcome * App :=
  if stream request then
    (* async def generate_stream() *)
    match ai_engine.get_translator repr_value app with
    | (Raise e, app) =>
      (Responds (StreamingResponse (raise e) (lit "text/event-stream") STREAM_HEADERS),
       app)
    | (Ok translator, app) =>
      let '(translator, w, chunks) :=
        translate_dev_to_pm_stream repr_value translator (world app) (text_ request) in
      (Responds (StreamingResponse (async_for chunks yield)
                   (lit "text/event-stream") STREAM_HEADERS),
       set_instance app (Some translator) w)
    end
  else
    match ai_engine.get_translator repr_value app with
    | (Raise e, app) =>
      (HTTPException 500 (lit "翻译失败: " ++ exc_str e), app)
    | (Ok translator, app) =>
      let '(translator, w, chunks) :=
        translate_dev_to_pm_stream repr_value translator (world app) (text_ request) in
      let app := set_instance app (Some translator) w in
      let result := fold_left (fun parts chunk => parts ++ [chunk]) (fst chunks) [] in
      match snd chunks with
      | Raise e => (HTTPException 500 (lit "翻译失败: " ++ exc_str e), app)
      | Ok _ =>
        match str_join result with
        | Raise e => (HTTPException 500 (lit "翻译失败: " ++ exc_str e), app)
        | Ok translation =>
          (Responds (Returned (PyDict [str_item "translation" translation])), app)
        end
      end
    end.

(** Lines 138-163. Only [get_translator] is outside the [try]. *)
Definition startup_event (app : App) : result unit * App :=
  match ai_engine.get_translator repr_value app with
  | (Raise e, app) => (Raise e, app)
  | (Ok translator, app) =>
    let '(translator, w, connected) := test_connection translator (world app) in
    (Ok tt, set_instance app (Some translator) w)
  end.

End Endpoints.

(** Lines 165-171. *)
Definition shutdown_event (app : App) : App := ai_engine.cleanup app.

End main.

(** * Properties *)


(** ** The JSON scanner *)

Lemma skip_ws_length (s : text) : (length (skip_ws s) <= length s)%nat.
Proof.
  induction s as [|c s IH]; simpl; [lia|].
  destruct (is_json_ws c); simpl; lia.
Qed.

Lemma scanstring_length (s acc t r : text) :
  scanstring s acc = Some (t, r) -> (length r < length s)%nat.
Proof.
  remember (length s) as n eqn:Hn. revert s acc Hn.
  induction n as [n IH] using lt_wf_ind. intros s acc Hn H. subst n.
  assert (IH' : forall s' acc', (length s' < length s)%nat ->
            scanstring s' acc' = Some (t, r) -> (length r < length s')%nat).
  { intros s' acc' Hlt. apply (IH (length s') Hlt s' acc' eq_refl). }
  clear IH.
  destruct s as [|c s1]; [discriminate H|].
  cbn [scanstring] in H.
  repeat match type of H with
  | context [if ?c then _ else _] => destruct c eqn:?
  | context [match ?l with [] => _ | _ :: _ => _ end] => destruct l
  | context [match ?o with Some _ => _ | None => _ end] => destruct o eqn:?
  | None = Some _ => discriminate H
  | Some _ = Some _ => injection H as <- <-; cbn [length]; lia
  end;
  try discriminate H;
  try (apply IH' in H; cbn [length] in *; lia).
Qed.

Lemma take_digits_length (s d r : text) :
  take_digits s = (d, r) -> (length r <= length s)%nat.
Proof.
  revert d r. induction s as [|c s IH]; intros d r H; simpl in H.
  - injection H as <- <-. simpl. lia.
  - destruct (is_digit c).
    + destruct (take_digits s) as [d' r'] eqn:E. injection H as <- <-.
      specialize (IH d' r' eq_refl). simpl. lia.
    + injection H as <- <-. simpl. lia.
Qed.

Lemma match_number_length (s r : text) (v : result pyvalue) :
  match_number s = Some (v, r) -> (length r < length s)%nat.
Proof.
  unfold match_number. intros H.
  destruct s as [|c s]; [discriminate H|].
  repeat match type of H with
  | context [if ?c then _ else _] => destruct c eqn:?
  | context [let '(_, _) := take_digits ?l in _] =>
      let E := fresh "E" in
      destruct (take_digits l) as [? ?] eqn:E; apply take_digits_length in E
  | context [match ?l with [] => _ | _ :: _ => _ end] => destruct l
  | None = Some _ => discriminate H
  | Some _ = Some _ => injection H as <- <-
  end; cbn [length] in *; try discriminate H; try lia.
Qed.

(** Length facts about what the scanners leave, for [lia]. *)
Ltac shorter :=
  repeat match goal with
  | H : scanstring _ _ = Some (_, _) |- _ => apply scanstring_length in H
  | H : match_number _ = Some (_, _) |- _ => apply match_number_length in H
  | H : skip_ws ?s = _ |- _ =>
      let L := fresh "L" in
      pose proof (skip_ws_length s) as L; rewrite H in L; clear H
  end;
  repeat match goal with
  | H : context [length (skip_ws ?s)] |- _ =>
      lazymatch goal with
      | _ : (length (skip_ws s) <= length s)%nat |- _ => fail
      | _ => pose proof (skip_ws_length s)
      end
  | |- context [length (skip_ws ?s)] =>
      lazymatch goal with
      | _ : (length (skip_ws s) <= length s)%nat |- _ => fail
      | _ => pose proof (skip_ws_length s)
      end
  end;
  cbn [length] in *.

(** A value, a member list and an element list each consume input. *)
Lemma scan_shorter (fuel : nat) :
  forall s : text,
    (forall v r, scan_once fuel s = POk v r -> (length r < length s)%nat)
    /\ (forall pairs v r,
          parse_members fuel s pairs = POk v r -> (length r < length s)%nat)
    /\ (forall values v r,
          parse_elements fuel s values = POk v r -> (length r < length s)%nat).
Proof.
  induction fuel as [|fuel IH]; intros s.
  - repeat split; intros; discriminate.
  - assert (IHs : forall s v r, scan_once fuel s = POk v r -> (length r < length s)%nat)
      by (intros s'; apply (IH s')).
    assert (IHm : forall s pairs v r,
               parse_members fuel s pairs = POk v r -> (length r < length s)%nat)
      by (intros s'; apply (IH s')).
    assert (IHe : forall s values v r,
               parse_elements fuel s values = POk v r -> (length r < length s)%nat)
      by (intros s'; apply (IH s')).
    clear IH. split; [|split].
    + intros v r H. cbn [scan_once] in H.
      destruct s as [|c s1]; [discriminate H|].
      repeat match type of H with
      | context [if ?c then _ else _] => destruct c eqn:?
      | context [match scanstring ?a ?b with _ => _ end] =>
          destruct (scanstring a b) as [[? ?]|] eqn:?
      | context [match skip_ws ?a with _ => _ end] => destruct (skip_ws a) eqn:?
      | context [match match_number ?a with _ => _ end] =>
          destruct (match_number a) as [[[?|?] ?]|] eqn:?
      | POk _ _ = POk _ _ => injection H as <- <-
      end; try discriminate H;
      try (apply IHm in H); try (apply IHe in H);
      rewrite ?length_skipn;
      shorter; lia.
    + intros pairs v r H. cbn [parse_members] in H.
      destruct s as [|c s1]; [discriminate H|].
      repeat match type of H with
      | context [if ?c then _ else _] => destruct c eqn:?
      | context [match scanstring ?a ?b with _ => _ end] =>
          destruct (scanstring a b) as [[? ?]|] eqn:?
      | context [match skip_ws ?a with _ => _ end] => destruct (skip_ws a) eqn:?
      | context [match scan_once ?f ?a with _ => _ end] =>
          let E := fresh "E" in
          destruct (scan_once f a) eqn:E; [apply IHs in E| |]
      | POk _ _ = POk _ _ => injection H as <- <-
      end; try discriminate H;
      try (apply IHm in H);
      shorter; lia.
    + intros values v r H. cbn [parse_elements] in H.
      repeat match type of H with
      | context [if ?c then _ else _] => destruct c eqn:?
      | context [match skip_ws ?a with _ => _ end] => destruct (skip_ws a) eqn:?
      | context [match scan_once ?f ?a with _ => _ end] =>
          let E := fresh "E" in
          destruct (scan_once f a) eqn:E; [apply IHs in E| |]
      | POk _ _ = POk _ _ => injection H as <- <-
      end; try discriminate H;
      try (apply IHe in H);
      shorter; lia.
Qed.

Lemma scan_fuel (fuel : nat) :
  forall s : text,
    ((2 * length s < fuel)%nat -> scan_once fuel s <> PFuel)
    /\ (forall pairs, (2 * length s < fuel)%nat -> parse_members fuel s pairs <> PFuel)
    /\ (forall values, (2 * length s + 1 < fuel)%nat ->
          parse_elements fuel s values <> PFuel).
Proof.
  induction fuel as [|fuel IH]; intros s.
  - repeat split; intros; lia.
  - assert (IHs : forall s, (2 * length s < fuel)%nat -> scan_once fuel s <> PFuel)
      by (intros s'; apply (IH s')).
    assert (IHm : forall s pairs, (2 * length s < fuel)%nat ->
               parse_members fuel s pairs <> PFuel)
      by (intros s'; apply (IH s')).
    assert (IHe : forall s values, (2 * length s + 1 < fuel)%nat ->
               parse_elements fuel s values <> PFuel)
      by (intros s'; apply (IH s')).
    clear IH. split; [|split].
    + intros Hf. cbn [scan_once].
      destruct s as [|c s1]; [discriminate|].
      repeat match goal with
      | |- context [if ?c then _ else _] => destruct c eqn:?
      | |- context [match scanstring ?a ?b with _ => _ end] =>
          destruct (scanstring a b) as [[? ?]|] eqn:?
      | |- context [match skip_ws ?a with _ => _ end] => destruct (skip_ws a) eqn:?
      | |- context [match match_number ?a with _ => _ end] =>
          destruct (match_number a) as [[[?|?] ?]|] eqn:?
      end; try discriminate;
      first [apply IHm | apply IHe]; shorter; lia.
    + intros pairs Hf. cbn [parse_members].
      destruct s as [|c s1]; [discriminate|].
      repeat match goal with
      | |- context [if ?c then _ else _] => destruct c eqn:?
      | |- context [match scanstring ?a ?b with _ => _ end] =>
          destruct (scanstring a b) as [[? ?]|] eqn:?
      | |- context [match skip_ws ?a with _ => _ end] => destruct (skip_ws a) eqn:?
      | |- context [match scan_once ?f ?a with _ => _ end] =>
          let E := fresh "E" in
          destruct (scan_once f a) eqn:E;
          [apply (proj1 (scan_shorter _ _)) in E | |
           exfalso; revert E; apply IHs; shorter; lia]
      end; try discriminate;
      apply IHm; shorter; lia.
    + intros values Hf. cbn [parse_elements].
      repeat match goal with
      | |- context [if ?c then _ else _] => destruct c eqn:?
      | |- context [match skip_ws ?a with _ => _ end] => destruct (skip_ws a) eqn:?
      | |- context [match scan_once ?f ?a with _ => _ end] =>
          let E := fresh "E" in
          destruct (scan_once f a) eqn:E;
          [apply (proj1 (scan_shorter _ _)) in E | |
           exfalso; revert E; apply IHs; shorter; lia]
      end; try discriminate;
      apply IHe; shorter; lia.
Qed.

(** The fuel [json_loads] starts with is never used up. *)
Lemma json_loads_fuel_suffices (s : text) :
  scan_once (2 * length s + 2) (skip_ws s) <> PFuel.
Proof.
  apply scan_fuel. pose proof (skip_ws_length s). lia.
Qed.

Lemma match_number_error (s r : text) (e : py_exc) :
  match_number s = Some (Raise e, r) -> exc_type e = ValueError.
Proof.
  unfold match_number. intros H.
  repeat match type of H with
  | context [if ?c then _ else _] => destruct c eqn:?
  | context [let '(_, _) := take_digits ?l in _] => destruct (take_digits l) as [? ?]
  | context [match ?l with [] => _ | _ :: _ => _ end] => destruct l
  | None = Some _ => discriminate H
  | Some _ = Some _ => injection H as <- <-
  end; try discriminate H; reflexivity.
Qed.

Lemma scan_errors (fuel : nat) :
  forall (s : text) (e : py_exc),
    (scan_once fuel s = PErr e -> decode_failure e)
    /\ (forall pairs, parse_members fuel s pairs = PErr e -> decode_failure e)
    /\ (forall values, parse_elements fuel s values = PErr e -> decode_failure e).
Proof.
  induction fuel as [|fuel IH]; intros s e.
  - repeat split; intros; discriminate.
  - assert (IHs : forall s, scan_once fuel s = PErr e -> decode_failure e)
      by (intros s'; apply (IH s')).
    assert (IHm : forall s pairs, parse_members fuel s pairs = PErr e -> decode_failure e)
      by (intros s'; apply (IH s')).
    assert (IHe : forall s values, parse_elements fuel s values = PErr e -> decode_failure e)
      by (intros s'; apply (IH s')).
    clear IH. split; [|split].
    + intros H. cbn [scan_once] in H.
      repeat match type of H with
      | context [if ?c then _ else _] => destruct c eqn:?
      | context [match scanstring ?a ?b with _ => _ end] =>
          destruct (scanstring a b) as [[? ?]|] eqn:?
      | context [match skip_ws ?a with _ => _ end] => destruct (skip_ws a) eqn:?
      | context [match match_number ?a with _ => _ end] =>
          let E := fresh "E" in
          destruct (match_number a) as [[[?|?] ?]|] eqn:E;
          [ | apply match_number_error in E | ]
      | context [match ?l with [] => _ | _ :: _ => _ end] => destruct l
      | PErr _ = PErr _ => injection H as <-
      end; try discriminate H;
      first [ left; reflexivity | right; assumption
            | eapply IHm; eassumption | eapply IHe; eassumption ].
    + intros pairs H. cbn [parse_members] in H.
      repeat match type of H with
      | context [if ?c then _ else _] => destruct c eqn:?
      | context [match scanstring ?a ?b with _ => _ end] =>
          destruct (scanstring a b) as [[? ?]|] eqn:?
      | context [match skip_ws ?a with _ => _ end] => destruct (skip_ws a) eqn:?
      | context [match scan_once ?f ?a with _ => _ end] =>
          let E := fresh "E" in destruct (scan_once f a) eqn:E
      | context [match ?l with [] => _ | _ :: _ => _ end] => destruct l
      | PErr ?x = PErr _ => first [is_var x; injection H as -> | injection H as <-]
      end; try discriminate H;
      first [ left; reflexivity
            | eapply IHs; eassumption | eapply IHm; eassumption ].
    + intros values H. cbn [parse_elements] in H.
      repeat match type of H with
      | context [if ?c then _ else _] => destruct c eqn:?
      | context [match skip_ws ?a with _ => _ end] => destruct (skip_ws a) eqn:?
      | context [match scan_once ?f ?a with _ => _ end] =>
          let E := fresh "E" in destruct (scan_once f a) eqn:E
      | PErr ?x = PErr _ => first [is_var x; injection H as -> | injection H as <-]
      end; try discriminate H;
      first [ left; reflexivity
            | eapply IHs; eassumption | eapply IHe; eassumption ].
Qed.

(** [json.loads] raises [JSONDecodeError], or [ValueError] for an integer
    that is too long, and nothing else. *)
Lemma json_loads_raises (s : text) (e : py_exc) :
  json_loads s = Raise e -> decode_failure e.
Proof.
  unfold json_loads. intros H.
  destruct (startswith [BOM] s); [injection H as <-; left; reflexivity|].
  destruct (scan_once (2 * length s + 2) (skip_ws s)) as [v rest | e' |] eqn:E.
  - destruct (skip_ws rest); [discriminate H|]. injection H as <-. left. reflexivity.
  - injection H as <-. exact (proj1 (scan_errors _ _ _) E).
  - exfalso. exact (json_loads_fuel_suffices s E).
Qed.

(** ** Generators *)

Lemma gbind_gret_l {A B : Type} (a : A) (f : A -> gen B) : gbind (gret a) f = f a.
Proof. unfold gbind, gret. destruct (f a); reflexivity. Qed.

Lemma gbind_gret_r {A : Type} (m : gen A) : gbind m gret = m.
Proof.
  destruct m as [out [a | e]]; simpl; [rewrite app_nil_r|]; reflexivity.
Qed.

Lemma gbind_assoc {A B C : Type} (m : gen A) (f : A -> gen B) (g : B -> gen C) :
  gbind (gbind m f) g = gbind m (fun a => gbind (f a) g).
Proof.
  destruct m as [out [a | e]]; simpl; [|reflexivity].
  destruct (f a) as [out1 [b | e1]]; simpl; [|reflexivity].
  destruct (g b) as [out2 r]. rewrite app_assoc. reflexivity.
Qed.

Lemma gbind_ext {A B : Type} (m : gen A) (f g : A -> gen B) :
  (forall a, f a = g a) -> gbind m f = gbind m g.
Proof.
  intros H. destruct m as [out [a | e]]; simpl; [rewrite H|]; reflexivity.
Qed.

Lemma for_lines_app (l1 l2 : list text) :
  for_lines (l1 ++ l2) = (do for_lines l1 then for_lines l2).
Proof.
  induction l1 as [|l l1 IH].
  - symmetry. apply (gbind_gret_l tt (fun _ => for_lines l2)).
  - change (for_lines ((l :: l1) ++ l2))
      with (do process_line l then for_lines (l1 ++ l2)).
    change (for_lines (l :: l1)) with (do process_line l then for_lines l1).
    rewrite IH, gbind_assoc. reflexivity.
Qed.

(** ** Lines *)

Lemma split_nl_cons (c : N) (t : text) :
  split_nl (c :: t) =
  if c =? NL then [] :: split_nl t
  else (c :: hd [] (split_nl t)) :: tl (split_nl t).
Proof.
  simpl. destruct (c =? NL); [reflexivity|].
  destruct (split_nl t) eqn:E; [|reflexivity].
  destruct t as [|c' t']; simpl in E; [discriminate|].
  destruct (c' =? NL); [discriminate|]. destruct (split_nl t'); discriminate.
Qed.

Lemma split_nl_not_nil (t : text) : split_nl t <> [].
Proof.
  destruct t as [|c t]; [discriminate|].
  rewrite split_nl_cons. destruct (c =? NL); discriminate.
Qed.

Lemma complete_lines_cons (c : N) (t : text) :
  complete_lines (c :: t) =
  if c =? NL then [] :: complete_lines t
  else match complete_lines t with
       | [] => []
       | l :: ls => (c :: l) :: ls
       end.
Proof.
  unfold complete_lines. rewrite split_nl_cons.
  pose proof (split_nl_not_nil t) as Hne.
  destruct (c =? NL).
  - simpl. destruct (split_nl t); [contradiction|reflexivity].
  - destruct (split_nl t) as [|l [|l' ls]]; [contradiction| reflexivity |reflexivity].
Qed.

Lemma pending_cons (c : N) (t : text) :
  pending (c :: t) =
  if c =? NL then pending t
  else match complete_lines t with
       | [] => c :: pending t
       | _ :: _ => pending t
       end.
Proof.
  unfold pending, complete_lines. rewrite split_nl_cons.
  pose proof (split_nl_not_nil t) as Hne.
  destruct (c =? NL).
  - simpl. destruct (split_nl t); [contradiction|reflexivity].
  - destruct (split_nl t) as [|l [|l' ls]]; [contradiction| reflexivity |reflexivity].
Qed.

Lemma pending_no_newline (t : text) : ~ In NL (pending t).
Proof.
  induction t as [|c t IH]; [intros []|].
  rewrite pending_cons. destruct (c =? NL) eqn:E; [exact IH|].
  destruct (complete_lines t); [|exact IH].
  intros [H | H]; [|exact (IH H)].
  subst c. discriminate.
Qed.

Lemma no_newline_split (t : text) : ~ In NL t -> split_nl t = [t].
Proof.
  induction t as [|c t IH]; [reflexivity|].
  intros H. rewrite split_nl_cons.
  destruct (c =? NL) eqn:E.
  - exfalso. apply H. left. apply N.eqb_eq. exact E.
  - rewrite IH; [reflexivity|]. intros Hin. apply H. right. exact Hin.
Qed.

Lemma no_newline_complete_lines (t : text) : ~ In NL t -> complete_lines t = [].
Proof. intros H. unfold complete_lines. rewrite no_newline_split by exact H. reflexivity. Qed.

Lemma no_newline_pending (t : text) : ~ In NL t -> pending t = t.
Proof. intros H. unfold pending. rewrite no_newline_split by exact H. reflexivity. Qed.

Lemma unlines_pending (t : text) : t = unlines (complete_lines t) ++ pending t.
Proof.
  induction t as [|c t IH]; [reflexivity|].
  rewrite complete_lines_cons, pending_cons.
  destruct (c =? NL) eqn:E.
  - apply N.eqb_eq in E. subst c. simpl. f_equal. exact IH.
  - destruct (complete_lines t) as [|l ls]; simpl in *; f_equal; exact IH.
Qed.

(** Splitting a text in two: the first part's pending tail joins the
    second part. *)
Lemma complete_lines_app (a b : text) :
  complete_lines (a ++ b) = complete_lines a ++ complete_lines (pending a ++ b).
Proof.
  induction a as [|c a IH]; [reflexivity|].
  simpl app. rewrite !complete_lines_cons, pending_cons, IH.
  destruct (c =? NL) eqn:E; [reflexivity|].
  destruct (complete_lines a) as [|l ls]; simpl.
  - rewrite complete_lines_cons, E. reflexivity.
  - reflexivity.
Qed.

Lemma pending_app (a b : text) : pending (a ++ b) = pending (pending a ++ b).
Proof.
  induction a as [|c a IH]; [reflexivity|].
  simpl app. rewrite !pending_cons, complete_lines_app, IH.
  destruct (c =? NL) eqn:E; [reflexivity|].
  destruct (complete_lines a) as [|l ls]; simpl.
  - rewrite pending_cons, E. reflexivity.
  - reflexivity.
Qed.

(** The loop of lines 151-190 in one step: the complete lines of all that
    has arrived are processed in order, and the buffer is what follows the
    last newline. *)
Lemma for_chunks_lines (chunks : list bytes) (buffer : text) :
  ~ In NL buffer ->
  for_chunks chunks buffer =
  (do for_lines (complete_lines (buffer ++ decoded chunks))
   then gret (pending (buffer ++ decoded chunks))).
Proof.
  revert buffer. induction chunks as [|chunk rest IH]; intros buffer Hb.
  - unfold decoded. simpl. rewrite app_nil_r.
    rewrite no_newline_complete_lines, no_newline_pending by exact Hb.
    simpl. reflexivity.
  - assert (Hstep : forall d : text,
      (do for_lines (removelast (split_nl (buffer ++ d)))
       then for_chunks rest (List.last (split_nl (buffer ++ d)) [])) =
      (do for_lines (complete_lines (buffer ++ d ++ decoded rest))
       then gret (pending (buffer ++ d ++ decoded rest)))).
    { intros d. fold (complete_lines (buffer ++ d)). fold (pending (buffer ++ d)).
      rewrite IH by apply pending_no_newline.
      rewrite <- gbind_assoc, <- for_lines_app.
      rewrite (app_assoc buffer d (decoded rest)).
      rewrite <- complete_lines_app, <- pending_app. reflexivity. }
    destruct chunk as [|b chunk'].
    + simpl. rewrite IH by exact Hb. reflexivity.
    + change (decoded ((b :: chunk') :: rest))
        with (decode_ignore (b :: chunk') ++ decoded rest).
      rewrite <- Hstep. reflexivity.
Qed.

Lemma for_chunks_app (chunks rest : list bytes) (buffer : text) :
  for_chunks (chunks ++ rest) buffer =
  (let* b := for_chunks chunks buffer in for_chunks rest b).
Proof.
  revert buffer. induction chunks as [|chunk chunks IH]; intros buffer.
  - symmetry. apply (gbind_gret_l buffer (for_chunks rest)).
  - destruct chunk as [|b chunk'].
    + simpl. apply IH.
    + simpl app. cbn [for_chunks]. rewrite gbind_assoc.
      apply gbind_ext. intros _. apply IH.
Qed.

Lemma decoded_app (a b : list bytes) : decoded (a ++ b) = decoded a ++ decoded b.
Proof. unfold decoded. rewrite map_app, concat_app. reflexivity. Qed.





(** C2. In the streaming loop, once any number of chunks has been
    processed, the buffer is the part of the decoded input after its last
    newline, and what has been yielded comes from the newline-terminated
    lines only, taken in order; the loop over more chunks continues from
    that buffer. *)
Theorem buffer_is_tail_after_last_newline (chunks more : list bytes) :
  let t := decoded chunks in
  for_chunks chunks [] = (do for_lines (complete_lines t) then gret (pending t))
  /\ t = unlines (complete_lines t) ++ pending t
  /\ ~ In NL (pending t)
  /\ for_chunks (chunks ++ more) [] =
     (do for_lines (complete_lines t) then for_chunks more (pending t)).
Proof.
  intros t. subst t.
  assert (H : for_chunks chunks [] =
    (do for_lines (complete_lines (decoded chunks))
     then gret (pending (decoded chunks)))).
  { rewrite for_chunks_lines by (intros []). reflexivity. }
  repeat split.
  - exact H.
  - apply unlines_pending.
  - apply pending_no_newline.
  - rewrite for_chunks_app, H, gbind_assoc.
    apply gbind_ext. intros _. apply (gbind_gret_l _ (for_chunks more)).
Qed.



(** C10. Whatever follows the last newline when the body ends is dropped:
    trailing chunks that bring no newline change neither the fragments nor
    the way the response ends. *)
Theorem unterminated_tail_is_discarded
    (st : Z) (tx : result text) (js : result pyvalue)
    (chunks tail : list bytes) (ending : option py_exc) :
  ~ In NL (decoded tail) ->
  stream_response (mk_response st tx js (chunks ++ tail) ending)
  = stream_response (mk_response st tx js chunks ending).
Proof.
  intros Htail. unfold stream_response. cbn [resp_chunks resp_chunks_end].
  rewrite !for_chunks_lines by (intros []). simpl app.
  rewrite decoded_app, complete_lines_app.
  rewrite (no_newline_complete_lines (pending (decoded chunks) ++ decoded tail)).
  - rewrite app_nil_r, !gbind_assoc. apply gbind_ext. intros _.
    rewrite !gbind_gret_l. reflexivity.
  - intros Hin. apply in_app_or in Hin. destruct Hin as [Hin | Hin].
    + exact (pending_no_newline _ Hin).
    + exact (Htail Hin).
Qed.

(** A last event that lacks its newline: no fragment for it, no error. *)
Lemma unterminated_tail_is_discarded_witness :
  stream_response
    (mk_response 200 (Ok []) (Ok PyNone) ([event_A ++ LF] ++ [event_B]) None)
  = ([PyStr (lit "A")], Ok tt).
Proof.
  eapply eq_trans.
  - apply (unterminated_tail_is_discarded 200 (Ok []) (Ok PyNone)
             [event_A ++ LF] [event_B] None).
    vm_compute. intros H. repeat (destruct H as [H | H]; [discriminate H|]). exact H.
  - vm_compute. reflexivity.
Defined.

(** ** Blank input *)

Lemma lstrip_all_space (t : text) : forallb is_space t = true -> lstrip t = [].
Proof.
  induction t as [|c t IH]; [reflexivity|].
  simpl. destruct (is_space c); [exact IH | discriminate].
Qed.

Lemma is_blank_all_space (t : text) : forallb is_space t = true -> is_blank t = true.
Proof.
  intros H. unfold is_blank, strip. rewrite (lstrip_all_space t H).
  destruct t; reflexivity.
Qed.

(** C7. On a text that is empty or made of whitespace only, each streaming
    direction yields its one prompt and ends; the translator and the world
    are left as they were: no session is created and no request is added
    to those issued. *)
Theorem blank_input_prompts_without_network
    (repr_value : pyvalue -> text) (self : DeepSeekTranslator) (w : World)
    (text_ : text) :
  forallb is_space text_ = true ->
  translate_pm_to_dev_stream repr_value self w text_
    = (self, w, ([PyStr (lit "请输入有效的产品需求")], Ok tt))
  /\ translate_dev_to_pm_stream repr_value self w text_
    = (self, w, ([PyStr (lit "请输入有效的技术方案")], Ok tt)).
Proof.
  intros H. apply is_blank_all_space in H.
  unfold translate_pm_to_dev_stream, translate_dev_to_pm_stream.
  rewrite H. split; reflexivity.
Qed.

(** ** The session *)

Lemma is_closed_new_session (w : World) (s : ClientSession) :
  is_closed (snd (new_session w s)) (fst (new_session w s)) = closed s.
Proof.
  unfold new_session, is_closed. cbn [fst snd sessions].
  rewrite lookup_insert_eq. reflexivity.
Qed.

Lemma new_session_is_fresh (w : World) (s : ClientSession) :
  sessions w !! fst (new_session w s) = None.
Proof.
  unfold new_session. cbn [fst].
  apply not_elem_of_dom. apply is_fresh.
Qed.

Lemma is_closed_session_close (w : World) (l : nat) :
  is_closed (session_close w l) l = true.
Proof.
  unfold session_close, is_closed.
  destruct (sessions w !! l) as [s|] eqn:E.
  - cbn [sessions]. rewrite lookup_insert_eq. reflexivity.
  - rewrite E. reflexivity.
Qed.

(** What [get_session] hands out is open, is the translator's session, and
    leaves the request log and the server alone. *)
Lemma get_session_open (self : DeepSeekTranslator) (w : World) :
  let '(l, self', w') := get_session self w in
  is_closed w' l = false /\ _session self' = Some l
  /\ requests w' = requests w /\ server w' = server w.
Proof.
  unfold get_session.
  set (s := mk_session 10 300 (timeout self)
              [(lit "User-Agent", lit "CommunicationTranslator/1.0")] false).
  pose proof (is_closed_new_session w s) as Hnew.
  destruct (_session self) as [l|] eqn:E.
  - destruct (is_closed w l) eqn:Ec.
    + destruct (new_session w s) as [l' w'] eqn:En. cbn [fst snd] in Hnew.
      unfold new_session in En. injection En as <- <-. auto.
    + auto.
  - destruct (new_session w s) as [l' w'] eqn:En. cbn [fst snd] in Hnew.
    unfold new_session in En. injection En as <- <-. auto.
Qed.

(** C9. [close] does nothing when there is no session or the session is
    already closed, so closing twice leaves what closing once leaves; and
    the [get_session] that follows a [close] allocates a session that did
    not exist before, is open, becomes the translator's, and accepts a
    request. *)
Theorem close_twice_then_session_is_recreated
    (self : DeepSeekTranslator) (w : World)
    (url : text) (headers : list (text * text)) (data : pyvalue) :
  match _session self with
  | None => close self w = (self, w)
  | Some l => if is_closed w l then close self w = (self, w) else True
  end
  /\ let '(self1, w1) := close self w in
     close self1 w1 = (self1, w1)
     /\ let '(l, self2, w2) := get_session self1 w1 in
        sessions w1 !! l = None
        /\ is_closed w2 l = false
        /\ _session self2 = Some l
        /\ session_post w2 l url headers data
           = (server w2 (mk_request l url headers data),
              mk_world (sessions w2)
                (requests w2 ++ [mk_request l url headers data]) (server w2)).
Proof.
  set (s := mk_session 10 300 (timeout self)
              [(lit "User-Agent", lit "CommunicationTranslator/1.0")] false).
  assert (Hfresh : forall (self1 : DeepSeekTranslator) (w1 : World),
            timeout self1 = timeout self ->
            get_session self1 w1
              = (fst (new_session w1 s),
                 set_session self1 (Some (fst (new_session w1 s))),
                 snd (new_session w1 s)) ->
            let '(l, self2, w2) := get_session self1 w1 in
            sessions w1 !! l = None
            /\ is_closed w2 l = false
            /\ _session self2 = Some l
            /\ session_post w2 l url headers data
               = (server w2 (mk_request l url headers data),
                  mk_world (sessions w2)
                    (requests w2 ++ [mk_request l url headers data]) (server w2))).
  { intros self1 w1 _ ->.
    pose proof (is_closed_new_session w1 s) as Hopen.
    repeat split.
    - apply new_session_is_fresh.
    - exact Hopen.
    - unfold session_post. rewrite Hopen. reflexivity. }
  split.
  - unfold close. destruct (_session self) as [l|]; [|reflexivity].
    destruct (is_closed w l); reflexivity.
  - unfold close at 1. destruct (_session self) as [l|] eqn:E.
    + destruct (is_closed w l) eqn:Ec; cbn [negb].
      * split.
        { unfold close. rewrite E, Ec. reflexivity. }
        apply Hfresh; [reflexivity|].
        unfold get_session. rewrite E, Ec. fold s.
        destruct (new_session w s). reflexivity.
      * split; [reflexivity|].
        apply Hfresh; [reflexivity|].
        unfold get_session. cbn [_session set_session timeout]. fold s.
        destruct (new_session (session_close w l) s). reflexivity.
    + split.
      { unfold close. rewrite E. reflexivity. }
      apply Hfresh; [reflexivity|].
      unfold get_session. rewrite E. fold s.
      destruct (new_session w s). reflexivity.
Qed.

Lemma blank_input_prompts_without_network_witness :
  let w := mk_world ∅ [] (fun _ => Raise (mk_exc ClientError [])) in
  let self := mk_translator [] [] [] 2000 (fun t => t) (fun t => t) 60 None in
  translate_pm_to_dev_stream (fun _ => []) self w (lit "  ")
    = (self, w, ([PyStr (lit "请输入有效的产品需求")], Ok tt))
  /\ translate_dev_to_pm_stream (fun _ => []) self w (lit "  ")
    = (self, w, ([PyStr (lit "请输入有效的技术方案")], Ok tt)).
Proof.
  intros w self.
  apply (blank_input_prompts_without_network (fun _ => []) self w (lit "  ")).
  vm_compute. reflexivity.
Defined.

(** ** The API call *)


Lemma handle_exception_diagnostics (e : py_exc) :
  handle_exception e = (diagnostics e, Ok tt).
Proof.
  unfold handle_exception, diagnostics, is_ClientConnectorError, is_ClientError,
    is_TimeoutError.
  destruct (exc_type e); reflexivity.
Qed.

(** The outer [try] never lets an exception through: what the body yielded
    stays, the diagnostics of the exception follow. *)
Lemma try_except_handle_exception (body : gen unit) :
  try_except body handle_exception =
  match snd body with
  | Ok _ => body
  | Raise e => (fst body ++ diagnostics e, Ok tt)
  end.
Proof.
  destruct body as [out [[] | e]]; [reflexivity|].
  unfold try_except. rewrite handle_exception_diagnostics. reflexivity.
Qed.

(** One call issues one request, on an open session. *)
Lemma call_issues_one_request
    (repr_value : pyvalue -> text) (self : DeepSeekTranslator) (w : World)
    (messages : pyvalue) (stream : bool) :
  exists (self' : DeepSeekTranslator) (w' : World) (r : Request),
    _call_deepseek_api repr_value self w messages stream
      = (self', w',
         try_except (handle_response repr_value (server w r) stream) handle_exception)
    /\ requests w' = requests w ++ [r]
    /\ server w' = server w.
Proof.
  unfold _call_deepseek_api.
  pose proof (get_session_open self w) as H.
  destruct (get_session self w) as [[l self1] w1].
  destruct H as (Hopen & _ & Hreq & Hsrv).
  unfold session_post. rewrite Hopen, <- Hsrv, <- Hreq.
  eexists _, _, _. repeat split; reflexivity.
Qed.



(** ** Failures *)

Lemma for_values_yield (vs : list pyvalue) : for_values vs yield = (vs, Ok tt).
Proof.
  induction vs as [|v vs IH]; [reflexivity|].
  cbn [for_values]. rewrite IH. reflexivity.
Qed.

Lemma async_for_yield (g : gen unit) : async_for g yield = g.
Proof.
  unfold async_for. rewrite for_values_yield.
  destruct g as [out [[] | e]]; cbn; rewrite app_nil_r; reflexivity.
Qed.

Lemma call_ends_normally
    (repr_value : pyvalue -> text) (self : DeepSeekTranslator) (w : World)
    (messages : pyvalue) (stream : bool) :
  snd (snd (_call_deepseek_api repr_value self w messages stream)) = Ok tt.
Proof.
  destruct (call_issues_one_request repr_value self w messages stream)
    as (self0 & w0 & r0 & -> & _ & _).
  cbn [snd]. rewrite try_except_handle_exception.
  destruct (handle_response repr_value (server w r0) stream) as [out [[] | e]];
    reflexivity.
Qed.

Lemma call_when_post_fails
    (repr_value : pyvalue -> text) (self : DeepSeekTranslator) (w : World)
    (messages : pyvalue) (stream : bool) (e : py_exc) :
  (forall r, server w r = Raise e) ->
  snd (_call_deepseek_api repr_value self w messages stream)
  = (diagnostics e, Ok tt).
Proof.
  intros Hsrv.
  destruct (call_issues_one_request repr_value self w messages stream)
    as (self0 & w0 & r0 & -> & _ & _).
  cbn [snd]. rewrite Hsrv. unfold handle_response, lift, gbind, try_except.
  rewrite handle_exception_diagnostics. reflexivity.
Qed.

Lemma stream_of_call
    (repr_value : pyvalue -> text) (self : DeepSeekTranslator) (w : World)
    (text_ direction : text) :
  (let '(self', w', chunks) :=
     _call_deepseek_api repr_value self w
       (_create_messages self text_ direction) true in
   (self', w', async_for chunks yield))
  = _call_deepseek_api repr_value self w
      (_create_messages self text_ direction) true.
Proof.
  destruct (_call_deepseek_api _ _ _ _ _) as [[s' w''] g'].
  rewrite async_for_yield. reflexivity.
Qed.

Lemma streams_end_normally
    (repr_value : pyvalue -> text) (self : DeepSeekTranslator) (w : World)
    (text_ : text) :
  snd (snd (translate_pm_to_dev_stream repr_value self w text_)) = Ok tt
  /\ snd (snd (translate_dev_to_pm_stream repr_value self w text_)) = Ok tt.
Proof.
  unfold translate_pm_to_dev_stream, translate_dev_to_pm_stream.
  rewrite !stream_of_call.
  split; (destruct (is_blank text_); [reflexivity | apply call_ends_normally]).
Qed.

(** C5. Each streaming direction ends normally on every input and for
    every behaviour of the network: an exception of the request or of
    reading the response never leaves the generator. When the request
    itself fails, the fragments are the diagnostics of the failure: the
    connection message and the checklist for a connection failure, one
    message for another client error, one for a timeout, one generic
    message carrying the description for anything else. *)
Theorem failures_become_fragments
    (repr_value : pyvalue -> text) (self : DeepSeekTranslator) (w : World)
    (text_ : text) :
  snd (snd (translate_pm_to_dev_stream repr_value self w text_)) = Ok tt
  /\ snd (snd (translate_dev_to_pm_stream repr_value self w text_)) = Ok tt
  /\ (forall (posted : result ClientResponse) (stream : bool),
        try_except (handle_response repr_value posted stream) handle_exception
        = match snd (handle_response repr_value posted stream) with
          | Ok _ => handle_response repr_value posted stream
          | Raise e =>
            (fst (handle_response repr_value posted stream) ++ diagnostics e, Ok tt)
          end)
  /\ forall e : py_exc,
       (forall r, server w r = Raise e) ->
       is_blank text_ = false ->
       snd (translate_pm_to_dev_stream repr_value self w text_)
         = (diagnostics e, Ok tt)
       /\ snd (translate_dev_to_pm_stream repr_value self w text_)
         = (diagnostics e, Ok tt).
Proof.
  destruct (streams_end_normally repr_value self w text_) as [Hpm Hdev].
  split; [exact Hpm|]. split; [exact Hdev|]. split.
  - intros posted stream. apply try_except_handle_exception.
  - unfold translate_pm_to_dev_stream, translate_dev_to_pm_stream.
    rewrite !stream_of_call.
    intros e Hsrv ->. split; apply call_when_post_fails; exact Hsrv.
Qed.

(** A refused connection: the connection message, then the checklist. *)
Lemma failures_become_fragments_witness :
  snd (translate_pm_to_dev_stream (fun _ => []) example_translator
         (example_world (fun _ => Raise (mk_exc ClientConnectorError (lit "refused"))))
         (lit "add a login page"))
  = ([PyStr (lit "【网络错误】无法连接到DeepSeek API: refused");
      PyStr (lit "请检查：" ++ [NL] ++ lit "1. 网络连接是否正常" ++ [NL]
             ++ lit "2. API地址是否正确" ++ [NL] ++ lit "3. 防火墙设置")],
     Ok tt).
Proof.
  destruct (failures_become_fragments (fun _ => []) example_translator
              (example_world (fun _ => Raise (mk_exc ClientConnectorError (lit "refused"))))
              (lit "add a login page")) as (_ & _ & _ & H).
  destruct (H (mk_exc ClientConnectorError (lit "refused"))) as [Hpm _].
  - intros r. reflexivity.
  - vm_compute. reflexivity.
  - rewrite Hpm. vm_compute. reflexivity.
Defined.

(** ** Buffered translation *)

Lemma append_all (vs acc : list pyvalue) :
  fold_left (fun parts chunk => parts ++ [chunk]) vs acc = acc ++ vs.
Proof.
  revert acc. induction vs as [|v vs IH]; intros acc; simpl.
  - rewrite app_nil_r. reflexivity.
  - rewrite IH, <- app_assoc. reflexivity.
Qed.

Lemma join_from_concatenation (i : nat) (parts : list pyvalue) :
  returned (join_from i parts) = concatenation parts.
Proof.
  revert i. induction parts as [|v parts IH]; intros i; [reflexivity|].
  cbn [concatenation fold_right]. fold (concatenation parts).
  rewrite <- (IH (S i)).
  destruct v; cbn [join_from]; try reflexivity.
  destruct (join_from (S i) parts); reflexivity.
Qed.

Lemma collect_concatenation (g : gen unit) :
  snd g = Ok tt -> returned (collect g) = concatenation (fst g).
Proof.
  intros H. unfold collect. rewrite H, append_all. apply join_from_concatenation.
Qed.

(** C6. The buffered operation runs the streaming operation of the same
    direction from the same translator and world, leaves them as the
    streaming operation leaves them, and returns the fragments of that
    stream put one after the other in order; it returns nothing exactly
    when some fragment is not a string. *)
Theorem buffered_is_concatenation_of_stream
    (repr_value : pyvalue -> text) (self : DeepSeekTranslator) (w : World)
    (text_ : text) :
  (exists r : result text,
     translate_pm_to_dev repr_value self w text_ false
       = (fst (translate_pm_to_dev_stream repr_value self w text_), Buffered r)
     /\ returned r
        = concatenation (fst (snd (translate_pm_to_dev_stream repr_value self w text_))))
  /\ (exists r : result text,
        translate_dev_to_pm repr_value self w text_ false
          = (fst (translate_dev_to_pm_stream repr_value self w text_), Buffered r)
        /\ returned r
           = concatenation (fst (snd (translate_dev_to_pm_stream repr_value self w text_)))).
Proof.
  destruct (streams_end_normally repr_value self w text_) as [Hpm Hdev].
  unfold translate_pm_to_dev, translate_dev_to_pm.
  destruct (translate_pm_to_dev_stream repr_value self w text_) as [[s1 w1] g1].
  destruct (translate_dev_to_pm_stream repr_value self w text_) as [[s2 w2] g2].
  cbn [fst snd] in *.
  split; eexists; (split; [reflexivity|]); apply collect_concatenation; assumption.
Qed.

(** ** Decoding chunks *)

Lemma utf8_scan_app_valid (a b : bytes) :
  valid_utf8 a = true -> utf8_scan (a ++ b) = utf8_scan a ++ utf8_scan b.
Proof.
  unfold valid_utf8.
  remember (length a) as n eqn:Hn. revert a Hn.
  induction n as [n IH] using lt_wf_ind. intros a Hn Hv.
  assert (IH' : forall a' : bytes, (length a' < length a)%nat ->
            existsb is_bad (utf8_scan a') = false ->
            utf8_scan (a' ++ b) = utf8_scan a' ++ utf8_scan b).
  { intros a' Hlt Hv'. apply (IH (length a')); [lia | reflexivity |].
    rewrite Hv'. reflexivity. }
  clear IH Hn n.
  apply negb_true_iff in Hv.
  destruct a as [|b1 r1]; [reflexivity|].
  simpl app. cbn [utf8_scan] in *.
  repeat match type of Hv with
  | context [if ?c then _ else _] => destruct c eqn:?
  | context [match ?l with [] => _ | _ :: _ => _ end] => destruct l; simpl app
  | existsb is_bad (_ :: _) = false => cbn [existsb is_bad orb] in Hv
  | true = false => discriminate Hv
  end;
  try discriminate Hv;
  repeat match goal with
  | H : ?c = _ |- context [if ?c then _ else _] => rewrite H
  end;
  cbn [app orb negb]; f_equal; apply IH'; cbn [length]; try lia; exact Hv.
Qed.

Lemma decode_ignore_app_valid (a b : bytes) :
  valid_utf8 a = true -> decode_ignore (a ++ b) = decode_ignore a ++ decode_ignore b.
Proof.
  intros H. unfold decode_ignore.
  rewrite (utf8_scan_app_valid a b H). apply flat_map_app.
Qed.

Lemma decoded_valid (chunks : list bytes) :
  forallb valid_utf8 chunks = true -> decoded chunks = decode_ignore (concat chunks).
Proof.
  induction chunks as [|c chunks IH]; [reflexivity|].
  cbn [forallb]. intros H. apply andb_true_iff in H. destruct H as [Hc Hrest].
  change (decoded (c :: chunks)) with (decode_ignore c ++ decoded chunks).
  cbn [concat]. rewrite (decode_ignore_app_valid c _ Hc), (IH Hrest). reflexivity.
Qed.

(** X1. Cuts that fall between characters do not show: two ways of
    cutting the same bytes into chunks that are each well-formed UTF-8
    give the same fragments, the same end and the same buffer. *)
Theorem cuts_between_characters_agree (chunks1 chunks2 : list bytes) :
  concat chunks1 = concat chunks2 ->
  forallb valid_utf8 chunks1 = true ->
  forallb valid_utf8 chunks2 = true ->
  for_chunks chunks1 [] = for_chunks chunks2 [].
Proof.
  intros Heq H1 H2.
  rewrite !for_chunks_lines by (intros []). simpl app.
  rewrite (decoded_valid chunks1 H1), (decoded_valid chunks2 H2), Heq.
  reflexivity.
Qed.

Lemma cuts_between_characters_agree_witness :
  for_chunks [event_A ++ LF ++ event_B ++ LF] []
  = for_chunks [firstn 10 (event_A ++ LF); skipn 10 (event_A ++ LF); event_B; LF] [].
Proof.
  apply cuts_between_characters_agree; vm_compute; reflexivity.
Defined.

(** C1. The fragments do depend on where the bytes are cut. This stream
    is well formed; delivered whole it yields the fragment 你好; cut after
    its 40th byte, inside the three bytes of 你, each part of the
    character is undecodable in its own chunk and is dropped, and the
    fragment is 好. *)
Theorem cut_inside_character_changes_fragments :
  well_formed_sse greeting_stream = true
  /\ firstn 40 greeting_stream ++ skipn 40 greeting_stream = greeting_stream
  /\ for_chunks [greeting_stream] [] = ([PyStr (lit "你好")], Ok [])
  /\ for_chunks [firstn 40 greeting_stream; skipn 40 greeting_stream] []
     = ([PyStr (lit "好")], Ok []).
Proof. vm_compute. repeat split. Qed.

Lemma flat_map_ignore_strict (items : list utf8_item) :
  flat_map (item_chars Strict) items = flat_map (item_chars Ignore) items.
Proof.
  induction items as [|[c | n] items IH]; simpl; rewrite ?IH; reflexivity.
Qed.

Lemma replace_length (items : list utf8_item) :
  length (flat_map (item_chars Replace) items)
  = (length (flat_map (item_chars Ignore) items) + length (filter is_bad items))%nat.
Proof.
  induction items as [|[c | n] items IH]; simpl.
  - reflexivity.
  - rewrite IH. reflexivity.
  - rewrite IH. lia.
Qed.

Lemma ignore_sublist_replace (items : list utf8_item) :
  sublist (flat_map (item_chars Ignore) items) (flat_map (item_chars Replace) items).
Proof.
  induction items as [|[c | n] items IH]; simpl.
  - constructor.
  - constructor. exact IH.
  - constructor. exact IH.
Qed.

(** C8, amended. Decoding a chunk never fails, and it drops what it cannot
    decode: the text is that of strict decoding when the chunk is
    well-formed, and otherwise it is the text that replacing would give
    with the replacement characters of the undecodable runs left out. The
    loop takes that text into its buffer and goes on with the next
    chunks. *)
Theorem undecodable_bytes_are_dropped (chunk : bytes) (more : list bytes) :
  bytes_decode Ignore chunk = Some (decode_ignore chunk)
  /\ (bytes_decode Strict chunk = None
      \/ bytes_decode Strict chunk = Some (decode_ignore chunk))
  /\ (exists replaced : text,
        bytes_decode Replace chunk = Some replaced
        /\ sublist (decode_ignore chunk) replaced
        /\ length replaced = (length (decode_ignore chunk) + bad_runs chunk)%nat)
  /\ for_chunks (chunk :: more) []
     = (do for_lines (complete_lines (decode_ignore chunk))
        then for_chunks more (pending (decode_ignore chunk))).
Proof.
  unfold bytes_decode, bad_runs.
  split; [reflexivity|]. split; [|split].
  - unfold decode_ignore.
    destruct (existsb is_bad (utf8_scan chunk)); [left; reflexivity|].
    right. rewrite flat_map_ignore_strict. reflexivity.
  - unfold decode_ignore. eexists. split; [reflexivity|]. split.
    + apply ignore_sublist_replace.
    + apply replace_length.
  - change (chunk :: more) with ([chunk] ++ more).
    rewrite for_chunks_app, for_chunks_lines by (intros []).
    unfold decoded. cbn [map concat app]. rewrite app_nil_r, gbind_assoc.
    apply gbind_ext. intros _. apply (gbind_gret_l _ (for_chunks more)).
Qed.

(** C8 as stated fails: the byte FF is undecodable, and the decoded text
    holds no replacement for it, unlike what replacing gives. *)
Lemma undecodable_byte_is_not_replaced :
  bytes_decode Strict [xff] = None
  /\ decode_ignore [xff] = []
  /\ bytes_decode Replace [xff] = Some [REPLACEMENT_CHARACTER]
  /\ ~ (forall chunk : bytes,
          bytes_decode Replace chunk = Some (decode_ignore chunk)).
Proof.
  repeat split. intros H. specialize (H [xff]). discriminate H.
Qed.

(** ** Single events *)

Lemma dict_lookup_not_nil (k : text) (d : list (text * pyvalue)) (v : pyvalue) :
  dict_lookup k d = Some v -> d <> [].
Proof. destruct d; [discriminate | discriminate]. Qed.



(** X3. The end marker [data: [DONE]] and every line that does not start
    with [data: ] once stripped yield nothing and raise nothing. *)
Theorem marker_and_other_lines_yield_nothing (line : text) :
  strip line = DATA_PREFIX ++ DONE \/ startswith DATA_PREFIX (strip line) = false ->
  process_line line = gret tt.
Proof.
  intros [H | H]; unfold process_line; rewrite H.
  - reflexivity.
  - destruct (strip line); reflexivity.
Qed.

Lemma marker_and_other_lines_yield_nothing_witness :
  process_line (decode_ignore (event_done ++ [x0d])) = gret tt
  /\ process_line (lit ": keep-alive") = gret tt.
Proof.
  split; apply marker_and_other_lines_yield_nothing.
  - left. vm_compute. reflexivity.
  - right. vm_compute. reflexivity.
Defined.

(** ** One session, one request *)

(** X4. While the translator's session is open, [get_session] hands out
    that same session and changes nothing. *)
Theorem open_session_is_reused (self : DeepSeekTranslator) (w : World) (l : nat) :
  _session self = Some l ->
  is_closed w l = false ->
  get_session self w = (l, self, w).
Proof.
  intros Hs Hc. unfold get_session. rewrite Hs, Hc. reflexivity.
Qed.

Lemma open_session_is_reused_witness :
  let '(l, self, w) := get_session example_translator (example_world (fun _ => no_json_response)) in
  get_session self w = (l, self, w).
Proof.
  destruct (get_session example_translator (example_world (fun _ => no_json_response)))
    as [[l self] w] eqn:E.
  pose proof (get_session_open example_translator
                (example_world (fun _ => no_json_response))) as H.
  rewrite E in H. destruct H as (Hopen & Hself & _).
  exact (open_session_is_reused self w l Hself Hopen).
Defined.

Lemma get_session_keeps_configuration (self : DeepSeekTranslator) (w : World) :
  let self' := snd (fst (get_session self w)) in
  base_url self' = base_url self /\ api_key self' = api_key self
  /\ model self' = model self /\ max_tokens self' = max_tokens self.
Proof.
  unfold get_session.
  destruct (_session self) as [l|]; [destruct (is_closed w l)|];
    try destruct (new_session w _); cbn; auto.
Qed.

(** X5. A translation of a text that is not blank issues exactly one
    request: a POST to [base_url + "/chat/completions"] that asks for an
    event stream, carries the bearer key, and whose body is the request
    data built from the two messages of the direction, with streaming on. *)
Theorem translation_issues_one_request
    (repr_value : pyvalue -> text) (self : DeepSeekTranslator) (w : World)
    (text_ : text) :
  is_blank text_ = false ->
  exists l : nat,
    requests (snd (fst (translate_pm_to_dev_stream repr_value self w text_)))
    = requests w ++ [
        mk_request l (base_url self ++ lit "/chat/completions")
          [(lit "Content-Type", lit "application/json");
           (lit "Authorization", lit "Bearer " ++ api_key self);
           (lit "Accept", lit "text/event-stream")]
          (PyDict [
             (lit "model", PyStr (model self));
             (lit "messages", _create_messages self text_ PM_TO_DEV);
             (lit "stream", PyBool true);
             (lit "temperature", PyFloat 7 (-1));
             (lit "max_tokens", PyInt (max_tokens self));
             (lit "top_p", PyFloat 9 (-1));
             (lit "frequency_penalty", PyFloat 0 (-1));
             (lit "presence_penalty", PyFloat 0 (-1))])].
Proof.
  intros Hb. unfold translate_pm_to_dev_stream. rewrite Hb, stream_of_call.
  unfold _call_deepseek_api.
  pose proof (get_session_open self w) as Ho.
  pose proof (get_session_keeps_configuration self w) as Hk.
  destruct (get_session self w) as [[l self1] w1].
  cbn [fst snd] in Hk. destruct Hk as (Hu & Ha & Hm & Ht).
  destruct Ho as (Hopen & _ & Hreq & _).
  unfold session_post. rewrite Hopen. cbn [fst snd requests].
  exists l. rewrite Hreq, Hu, Ha.
  unfold _create_request_data, str_item. rewrite Hm, Ht. reflexivity.
Qed.

Lemma translation_issues_one_request_witness :
  length (requests (snd (fst (translate_pm_to_dev_stream (fun _ => [])
                                example_translator
                                (example_world (fun _ => no_json_response))
                                (lit "add a login page")))))
  = 1%nat.
Proof.
  destruct (translation_issues_one_request (fun _ => []) example_translator
              (example_world (fun _ => no_json_response))
              (lit "add a login page")) as [l H].
  - vm_compute. reflexivity.
  - rewrite H. reflexivity.
Defined.

(** ** Fragments and lines *)

Lemma lift_bound {A B : Type} (r : result A) (f : A -> gen B) (n : nat) :
  (forall a, length (fst (f a)) <= n)%nat ->
  (length (fst (gbind (lift r) f)) <= n)%nat.
Proof.
  intros H. destruct r as [a | e]; cbn; [|lia].
  specialize (H a). destruct (f a). exact H.
Qed.

Lemma lift_silent {A B : Type} (r : result A) (f : A -> gen B) :
  (forall a, fst (f a) = []) -> fst (gbind (lift r) f) = [].
Proof.
  intros H. destruct r as [a | e]; cbn; [|reflexivity].
  specialize (H a). destruct (f a). exact H.
Qed.

Lemma silent_tail_bound {A B : Type} (m : gen A) (f : A -> gen B) (n : nat) :
  (length (fst m) <= n)%nat -> (forall a, fst (f a) = []) ->
  (length (fst (gbind m f)) <= n)%nat.
Proof.
  intros Hm Hf. destruct m as [out [a | e]]; cbn in *; [|exact Hm].
  specialize (Hf a). destruct (f a) as [out' r]. cbn in Hf. subst out'.
  rewrite app_nil_r. exact Hm.
Qed.

Lemma decode_event_at_most_one (data_str : text) :
  (length (fst (decode_event data_str)) <= 1)%nat.
Proof.
  unfold decode_event.
  apply lift_bound; intros data_obj. apply lift_bound; intros choices.
  destruct (negb (truthy choices)); [cbn; lia|].
  apply lift_bound; intros choices'. apply lift_bound; intros n.
  destruct (negb (0 <? n)%nat); [cbn; lia|].
  apply lift_bound; intros choices''. apply lift_bound; intros choice.
  apply lift_bound; intros delta.
  apply silent_tail_bound.
  - destruct (negb (truthy delta)); [cbn; lia|].
    apply lift_bound; intros has_content.
    destruct (negb has_content); [cbn; lia|].
    apply lift_bound; intros content.
    destruct (truthy content); cbn; lia.
  - intros []. repeat (apply lift_silent; intros ?). reflexivity.
Qed.

Lemma process_line_at_most_one (line : text) :
  (length (fst (process_line line)) <= 1)%nat.
Proof.
  unfold process_line.
  destruct (strip line) as [|c s]; [cbn; lia|].
  destruct (startswith DATA_PREFIX (c :: s)); [|cbn; lia].
  destruct (text_eqb _ DONE); [cbn; lia|].
  pose proof (decode_event_at_most_one (skipn 6 (c :: s))) as H.
  destruct (decode_event _) as [out [[] | e]]; cbn [try_except fst] in *; [exact H|].
  destruct (is_JSONDecodeError e); cbn; rewrite app_nil_r; exact H.
Qed.

Lemma for_lines_bound (lines : list text) :
  (length (fst (for_lines lines)) <= length lines)%nat.
Proof.
  induction lines as [|line rest IH]; [cbn; lia|].
  cbn [for_lines length].
  pose proof (process_line_at_most_one line) as H.
  destruct (process_line line) as [out [[] | e]]; cbn [gbind fst] in *; [|lia].
  destruct (for_lines rest) as [out' r]. cbn [fst] in *.
  rewrite length_app. lia.
Qed.

(** X6. A line yields at most one fragment, and a response body never
    yields more fragments than it has lines that a newline ended. *)
Theorem fragments_are_bounded_by_lines (line : text) (chunks : list bytes) :
  (length (fst (process_line line)) <= 1)%nat
  /\ (length (fst (for_chunks chunks [])) <= length (complete_lines (decoded chunks)))%nat.
Proof.
  split; [apply process_line_at_most_one|].
  rewrite for_chunks_lines by (intros []). simpl app.
  pose proof (for_lines_bound (complete_lines (decoded chunks))) as H.
  destruct (for_lines _) as [out [[] | e]]; cbn [gbind gret fst] in *;
    rewrite ?app_nil_r; exact H.
Qed.







(** X9. A call that was answered with status 200 and asked for a stream
    yields the fragments of the body's complete lines in order, and always
    ends normally: when a line raised, or the body broke off with an
    exception, the fragments decoded until then stay and the diagnostics
    of that exception follow them. *)
Theorem broken_body_keeps_decoded_fragments
    (repr_value : pyvalue -> text) (response : ClientResponse) :
  status response = 200%Z ->
  try_except (handle_response repr_value (Ok response) true) handle_exception
  = (fst (for_lines (complete_lines (decoded (resp_chunks response))))
     ++ match snd (for_lines (complete_lines (decoded (resp_chunks response)))),
              resp_chunks_end response with
        | Raise e, _ => diagnostics e
        | Ok _, Some e => diagnostics e
        | Ok _, None => []
        end,
     Ok tt).
Proof.
  intros Hst. rewrite try_except_handle_exception.
  unfold handle_response. rewrite (gbind_gret_l response), Hst.
  cbn [Z.eqb Pos.eqb negb]. unfold stream_response.
  rewrite for_chunks_lines by (intros []). simpl app.
  destruct (for_lines _) as [out [[] | e]]; cbn [gbind gret fst snd app].
  - destruct (resp_chunks_end response) as [e|]; cbn; rewrite ?app_nil_r; reflexivity.
  - reflexivity.
Qed.

(** A connection reset after the first event: the fragment, then the
    message for a client error. *)
Lemma broken_body_keeps_decoded_fragments_witness :
  try_except
    (handle_response (fun _ => [])
       (Ok (mk_response 200 (Ok []) no_json [event_A ++ LF; event_B]
              (Some (mk_exc ClientError (lit "reset"))))) true)
    handle_exception
  = ([PyStr (lit "A"); PyStr (lit "【HTTP错误】请求失败: reset")], Ok tt).
Proof.
  eapply eq_trans.
  - apply (broken_body_keeps_decoded_fragments (fun _ => [])
             (mk_response 200 (Ok []) no_json [event_A ++ LF; event_B]
                (Some (mk_exc ClientError (lit "reset"))))).
    reflexivity.
  - vm_compute. reflexivity.
Defined.

(** ** Blanks around a line *)

Lemma lstrip_app_blank (a t : text) :
  forallb is_space a = true -> lstrip (a ++ t) = lstrip t.
Proof.
  induction a as [|c a IH]; intros H; [reflexivity|].
  cbn [forallb] in H. apply andb_true_iff in H. destruct H as [Hc Ha].
  cbn [app lstrip]. rewrite Hc. apply IH, Ha.
Qed.

Lemma lstrip_app (t b : text) :
  lstrip (t ++ b) = if forallb is_space t then lstrip b else lstrip t ++ b.
Proof.
  induction t as [|c t IH]; [reflexivity|].
  cbn [app lstrip forallb]. destruct (is_space c); [exact IH | reflexivity].
Qed.

Lemma forallb_reversed {A : Type} (f : A -> bool) (l : list A) :
  forallb f (rev l) = forallb f l.
Proof.
  induction l as [|x l IH]; [reflexivity|].
  cbn [rev forallb]. rewrite forallb_app, IH. cbn [forallb].
  rewrite andb_true_r. apply andb_comm.
Qed.

Lemma rstrip_app_blank (t b : text) :
  forallb is_space b = true -> rstrip (t ++ b) = rstrip t.
Proof.
  intros H. unfold rstrip. rewrite rev_app_distr.
  rewrite lstrip_app_blank by (rewrite forallb_reversed; exact H). reflexivity.
Qed.

Lemma strip_surrounded (a t b : text) :
  forallb is_space a = true -> forallb is_space b = true ->
  strip (a ++ t ++ b) = strip t.
Proof.
  intros Ha Hb. unfold strip.
  rewrite lstrip_app_blank by exact Ha.
  rewrite lstrip_app. destruct (forallb is_space t) eqn:E.
  - rewrite (lstrip_all_space b Hb), (lstrip_all_space t E). reflexivity.
  - apply rstrip_app_blank, Hb.
Qed.

(** X10. Blanks around a line do not matter: a line between any runs of
    characters that [str.strip] removes, a carriage return before the
    newline among them, is processed as the line alone. *)
Theorem surrounding_blanks_are_ignored (before line after : text) :
  forallb is_space before = true ->
  forallb is_space after = true ->
  process_line (before ++ line ++ after) = process_line line.
Proof.
  intros Ha Hb. unfold process_line.
  rewrite (strip_surrounded before line after Ha Hb). reflexivity.
Qed.

(** An event that ends in a carriage return. *)
Lemma surrounding_blanks_are_ignored_witness :
  process_line ([] ++ decode_ignore event_A ++ [13]) = ([PyStr (lit "A")], Ok tt).
Proof.
  eapply eq_trans.
  - apply (surrounding_blanks_are_ignored [] (decode_ignore event_A) [13]);
      reflexivity.
  - vm_compute. reflexivity.
Defined.

(** ** The reply without streaming *)

(** X11. Without streaming, a response of status 200 whose JSON body is an
    object with [choices[0].message.content] yields that content as the
    only fragment when it is truthy, and nothing when it is not. *)
Theorem plain_response_yields_message_content
    (repr_value : pyvalue -> text) (response : ClientResponse)
    (d choice message : list (text * pyvalue)) (others : list pyvalue)
    (content : pyvalue) :
  status response = 200%Z ->
  resp_json response = Ok (PyDict d) ->
  dict_lookup (lit "choices") d = Some (PyList (PyDict choice :: others)) ->
  dict_lookup (lit "message") choice = Some (PyDict message) ->
  dict_lookup (lit "content") message = Some content ->
  handle_response repr_value (Ok response) false
  = (if truthy content then [content] else [], Ok tt).
Proof.
  intros Hst Hj Hc Hm Hv.
  unfold handle_response. rewrite (gbind_gret_l response), Hst.
  cbn [Z.eqb Pos.eqb negb]. unfold plain_response. rewrite Hj.
  cbn [lift gbind py_get py_getitem app]. rewrite Hc.
  cbn [truthy negb length Nat.ltb Nat.leb py_len py_getitem_0 py_get py_getitem
       gbind app].
  rewrite Hm.
  pose proof (dict_lookup_not_nil _ _ _ Hv) as Hne.
  destruct message as [|kv message']; [contradiction|].
  cbn [truthy negb py_get py_getitem gbind app]. rewrite Hv.
  destruct (truthy content); reflexivity.
Qed.

Lemma plain_response_yields_message_content_witness :
  handle_response (fun _ => [])
    (Ok (mk_response 200 (Ok [])
           (json_loads (decode_ignore (sq "{'choices':[{'message':{'content':'ok'}}]}")))
           [] None))
    false
  = ([PyStr (lit "ok")], Ok tt).
Proof.
  apply (plain_response_yields_message_content (fun _ => [])
           (mk_response 200 (Ok [])
              (json_loads (decode_ignore (sq "{'choices':[{'message':{'content':'ok'}}]}")))
              [] None)
           [(lit "choices",
             PyList [PyDict [(lit "message", PyDict [(lit "content", PyStr (lit "ok"))])]])]
           [(lit "message", PyDict [(lit "content", PyStr (lit "ok"))])]
           [(lit "content", PyStr (lit "ok"))]
           [] (PyStr (lit "ok")));
    vm_compute; reflexivity.
Defined.

(** ** Other sessions *)

Lemma new_session_keeps_sessions (w : World) (s s' : ClientSession) (l : nat) :
  sessions w !! l = Some s' ->
  sessions (snd (new_session w s)) !! l = Some s'.
Proof.
  intros H. unfold new_session. cbn [snd sessions].
  rewrite lookup_insert_ne; [exact H|].
  intros E. pose proof (new_session_is_fresh w s) as Hf.
  unfold new_session in Hf. cbn [fst] in Hf. rewrite E in Hf. congruence.
Qed.

Lemma get_session_keeps_sessions
    (self : DeepSeekTranslator) (w : World) (l : nat) (s : ClientSession) :
  sessions w !! l = Some s ->
  sessions (snd (get_session self w)) !! l = Some s.
Proof.
  intros H. unfold get_session.
  set (s0 := mk_session 10 300 (timeout self)
               [(lit "User-Agent", lit "CommunicationTranslator/1.0")] false).
  pose proof (new_session_keeps_sessions w s0 s l H) as Hn.
  destruct (_session self) as [l0|]; [destruct (is_closed w l0)|];
    try (destruct (new_session w s0)); cbn [snd] in *; assumption.
Qed.

Lemma close_keeps_others (self : DeepSeekTranslator) (w : World) (l : nat) :
  _session self <> Some l ->
  sessions (snd (close self w)) !! l = sessions w !! l.
Proof.
  intros H. unfold close.
  destruct (_session self) as [l0|]; [|reflexivity].
  destruct (is_closed w l0); cbn [negb snd]; [reflexivity|].
  unfold session_close. destruct (sessions w !! l0); [|reflexivity].
  cbn [sessions]. apply lookup_insert_ne. intros ->. apply H. reflexivity.
Qed.

Lemma close_keeps_log (self : DeepSeekTranslator) (w : World) :
  requests (snd (close self w)) = requests w
  /\ server (snd (close self w)) = server w.
Proof.
  unfold close. destruct (_session self) as [l0|]; [|auto].
  destruct (is_closed w l0); cbn [negb snd]; [auto|].
  unfold session_close. destruct (sessions w !! l0); auto.
Qed.

(** X12. The translator touches no session but its own: [get_session]
    leaves every session that exists as it is, [close] leaves every
    session other than the translator's as it is, and neither sends a
    request. *)
Theorem other_sessions_are_untouched (self : DeepSeekTranslator) (w : World) :
  (forall (l : nat) (s : ClientSession),
     sessions w !! l = Some s ->
     sessions (snd (get_session self w)) !! l = Some s)
  /\ (forall l : nat,
        _session self <> Some l ->
        sessions (snd (close self w)) !! l = sessions w !! l)
  /\ requests (snd (get_session self w)) = requests w
  /\ requests (snd (close self w)) = requests w.
Proof.
  repeat split.
  - intros l s. apply get_session_keeps_sessions.
  - intros l. apply close_keeps_others.
  - pose proof (get_session_open self w) as H.
    destruct (get_session self w) as [[l self'] w']. cbn [snd]. tauto.
  - apply close_keeps_log.
Qed.

(** ** Calls and sessions *)

(** The call, with the session it gets and the request it sends. *)
Lemma call_unfolds
    (repr_value : pyvalue -> text) (self : DeepSeekTranslator) (w : World)
    (messages : pyvalue) (stream : bool) :
  _call_deepseek_api repr_value self w messages stream =
  let '(l, self1, w1) := get_session self w in
  let r :=
    mk_request l (base_url self ++ lit "/chat/completions")
      [(lit "Content-Type", lit "application/json");
       (lit "Authorization", lit "Bearer " ++ api_key self);
       (lit "Accept", if stream then lit "text/event-stream" else lit "application/json")]
      (_create_request_data self messages stream) in
  (self1, mk_world (sessions w1) (requests w ++ [r]) (server w),
   try_except (handle_response repr_value (server w r) stream) handle_exception).
Proof.
  unfold _call_deepseek_api.
  pose proof (get_session_open self w) as Ho.
  pose proof (get_session_keeps_configuration self w) as Hk.
  destruct (get_session self w) as [[l self1] w1].
  cbn [fst snd] in Hk. destruct Hk as (Hu & Ha & Hm & Ht).
  destruct Ho as (Hopen & _ & Hreq & Hsrv).
  unfold session_post. rewrite Hopen. cbn zeta.
  unfold _create_request_data. rewrite Hreq, Hsrv, Hu, Ha, Hm, Ht. reflexivity.
Qed.

Lemma get_session_without_session (self : DeepSeekTranslator) (w : World) :
  _session self = None ->
  get_session self w =
  (fresh (dom (sessions w)),
   set_session self (Some (fresh (dom (sessions w)))),
   mk_world
     (<[fresh (dom (sessions w)) :=
          mk_session 10 300 (timeout self)
            [(lit "User-Agent", lit "CommunicationTranslator/1.0")] false]>
        (sessions w))
     (requests w) (server w)).
Proof. intros H. unfold get_session. rewrite H. reflexivity. Qed.

Lemma get_session_with_open_session
    (self : DeepSeekTranslator) (w : World) (l : nat) :
  _session self = Some l -> is_closed w l = false ->
  get_session self w = (l, self, w).
Proof. intros Hs Hc. unfold get_session. rewrite Hs, Hc. reflexivity. Qed.

Lemma is_closed_log (w : World) (rs : list Request)
    (srv : Request -> result ClientResponse) (l : nat) :
  is_closed (mk_world (sessions w) rs srv) l = is_closed w l.
Proof. reflexivity. Qed.

Lemma close_open_session (self : DeepSeekTranslator) (w : World) (l : nat) :
  _session self = Some l -> is_closed w l = false ->
  close self w = (set_session self None, session_close w l).
Proof. intros Hs Hc. unfold close. rewrite Hs, Hc. reflexivity. Qed.

(** ** The connectivity test *)

Lemma test_data_eq (self : DeepSeekTranslator) :
  py_setitem
    (_create_request_data self
       (PyList [
          PyDict [str_item "role" (lit "system"); str_item "content" (lit "你是一个测试助手")];
          PyDict [str_item "role" (lit "user"); str_item "content" (lit "请回复'连接成功'")]
        ]) false)
    (lit "max_tokens") (PyInt 10)
  = Ok (req_json (test_request self 0)).
Proof. vm_compute. reflexivity. Qed.

Lemma test_connection_unfolds (self : DeepSeekTranslator) (w : World) :
  test_connection self w =
  let '(l, self1, w1) := get_session self w in
  (set_session self None,
   session_close
     (mk_world (sessions w1) (requests w ++ [test_request self l]) (server w)) l,
   passes_test (server w (test_request self l))).
Proof.
  unfold test_connection.
  rewrite test_data_eq.
  cbv iota beta.
  pose proof (get_session_open self w) as Ho.
  pose proof (get_session_keeps_configuration self w) as Hk.
  destruct (get_session self w) as [[l self1] w1] eqn:Eg.
  cbn [fst snd] in Hk. destruct Hk as (Hu & Ha & Hm & Ht).
  destruct Ho as (Hopen & Hself & Hreq & Hsrv).
  unfold session_post. rewrite Hopen. cbv zeta.
  rewrite (close_open_session self1 _ l Hself) by exact Hopen.
  rewrite Hu, Ha, Hreq, Hsrv.
  replace (set_session self1 None) with (set_session self None).
  2:{ unfold set_session. rewrite Hu, Ha, Hm, Ht.
      unfold get_session in Eg.
      destruct (_session self) as [l0|]; [destruct (is_closed w l0)|];
        try (destruct (new_session w _)); injection Eg as <- <- <-; reflexivity. }
  f_equal. unfold passes_test, test_request, rbind.
  destruct (server w _) as [response | e]; [|reflexivity].
  destruct (status response =? 200)%Z; [|reflexivity].
  destruct (resp_json response); reflexivity.
Qed.

(** X13. The connectivity test sends exactly one request, the test
    conversation without streaming and with [max_tokens] 10, under two
    headers; it answers true exactly when the reply has status 200 and a
    body that reads as JSON; and whatever the reply, the session it used is
    closed afterwards and the translator is left without a session. *)
Theorem test_connection_closes_its_session (self : DeepSeekTranslator) (w : World) :
  let '(self', w', connected) := test_connection self w in
  self' = set_session self None
  /\ exists l : nat,
       requests w' = requests w ++ [test_request self l]
       /\ is_closed w' l = true
       /\ connected = passes_test (server w (test_request self l)).
Proof.
  rewrite test_connection_unfolds.
  destruct (get_session self w) as [[l self1] w1].
  split; [reflexivity|]. exists l. split; [|split].
  - unfold session_close. cbn [sessions requests server].
    destruct (sessions w1 !! l); reflexivity.
  - apply is_closed_session_close.
  - reflexivity.
Qed.

Lemma session_close_log (w : World) (l : nat) :
  requests (session_close w l) = requests w
  /\ server (session_close w l) = server w.
Proof. unfold session_close. destruct (sessions w !! l); auto. Qed.

(** X14. A translation that follows the connectivity test cannot use the
    session of the test: it opens another one, so the two requests go out
    on different sessions, the first of which is closed and the second
    open and kept by the translator. *)
Theorem translation_after_test_opens_new_session
    (repr_value : pyvalue -> text) (self : DeepSeekTranslator) (w : World)
    (text_ : text) :
  is_blank text_ = false ->
  let '(self1, w1, _) := test_connection self w in
  let '(self2, w2, _) := translate_pm_to_dev_stream repr_value self1 w1 text_ in
  exists r1 r2 : Request,
    requests w2 = requests w ++ [r1; r2]
    /\ req_session r1 <> req_session r2
    /\ is_closed w2 (req_session r1) = true
    /\ is_closed w2 (req_session r2) = false
    /\ _session self2 = Some (req_session r2).
Proof.
  intros Hb. rewrite test_connection_unfolds.
  pose proof (get_session_open self w) as Ho.
  destruct (get_session self w) as [[l self0] w0].
  destruct Ho as (Hopen & _ & _ & _).
  unfold translate_pm_to_dev_stream. rewrite Hb, stream_of_call, call_unfolds.
  set (w1 := session_close _ l).
  rewrite (get_session_without_session (set_session self None) w1) by reflexivity.
  destruct (session_close_log
              (mk_world (sessions w0) (requests w ++ [test_request self l]) (server w)) l)
    as [Hreq Hsrv].
  fold w1 in Hreq, Hsrv. cbn [requests server] in Hreq, Hsrv.
  set (l2 := fresh (dom (sessions w1))).
  eexists (test_request self l), (mk_request l2 _ _ _).
  cbn [requests req_session test_request set_session _session].
  assert (Hin : exists s, sessions w1 !! l = Some s /\ closed s = true).
  { subst w1. unfold session_close. cbn [sessions].
    unfold is_closed in Hopen.
    destruct (sessions w0 !! l) as [s|] eqn:E; [|discriminate Hopen].
    cbn [sessions]. rewrite lookup_insert_eq. eexists. split; reflexivity. }
  destruct Hin as (s & Hs & Hcl).
  assert (Hne : l <> l2).
  { intros E. pose proof (is_fresh (dom (sessions w1))) as Hf. fold l2 in Hf.
    apply not_elem_of_dom in Hf. rewrite <- E in Hf. congruence. }
  split; [|split; [|split; [|split]]].
  - rewrite Hreq, <- app_assoc. reflexivity.
  - exact Hne.
  - unfold is_closed. cbn [sessions].
    rewrite lookup_insert_ne by (intros E; apply Hne; symmetry; exact E).
    rewrite Hs. exact Hcl.
  - unfold is_closed. cbn [sessions]. rewrite lookup_insert_eq. reflexivity.
  - reflexivity.
Qed.

Lemma translation_after_test_opens_new_session_witness :
  let '(self1, w1, _) :=
    test_connection example_translator (example_world (fun _ => no_json_response)) in
  let '(self2, w2, _) :=
    translate_pm_to_dev_stream (fun _ => []) self1 w1 (lit "add a login page") in
  exists r1 r2 : Request,
    requests w2 = [r1; r2]
    /\ req_session r1 <> req_session r2
    /\ is_closed w2 (req_session r1) = true
    /\ is_closed w2 (req_session r2) = false
    /\ _session self2 = Some (req_session r2).
Proof.
  apply (translation_after_test_opens_new_session (fun _ => []) example_translator
           (example_world (fun _ => no_json_response)) (lit "add a login page")).
  vm_compute. reflexivity.
Defined.

(** The second of two calls finds the session of the first open. *)
Lemma two_streams_one_session
    (repr_value : pyvalue -> text) (self : DeepSeekTranslator) (w : World)
    (first second : text) :
  is_blank first = false ->
  is_blank second = false ->
  let '(self1, w1, _) := translate_pm_to_dev_stream repr_value self w first in
  let '(self2, w2, _) := translate_dev_to_pm_stream repr_value self1 w1 second in
  exists r1 r2 : Request,
    requests w2 = requests w ++ [r1; r2]
    /\ req_session r1 = req_session r2
    /\ self2 = self1
    /\ sessions w2 = sessions w1.
Proof.
  intros H1 H2.
  unfold translate_pm_to_dev_stream, translate_dev_to_pm_stream.
  rewrite H1, H2, !stream_of_call, call_unfolds.
  pose proof (get_session_open self w) as Ho.
  destruct (get_session self w) as [[l self1] w1].
  destruct Ho as (Hopen & Hself & _ & _).
  cbv beta iota zeta. rewrite call_unfolds.
  rewrite (get_session_with_open_session self1 _ l Hself) by exact Hopen.
  cbv beta iota zeta. eexists (mk_request l _ _ _), (mk_request l _ _ _).
  cbn [requests sessions req_session].
  split; [|split; [|split]]; try reflexivity.
  rewrite <- app_assoc. reflexivity.
Qed.

(** X15. Two translations of texts that are not blank, the first stream
    run to its end before the second starts, send their requests on one
    and the same session: the second call finds the session of the first
    open and neither replaces the translator's session nor creates one. *)
Theorem successive_translations_share_the_session
    (repr_value : pyvalue -> text) (self : DeepSeekTranslator) (w : World)
    (first second : text) :
  is_blank first = false ->
  is_blank second = false ->
  let '(self1, w1, _) := translate_pm_to_dev_stream repr_value self w first in
  let '(self2, w2, _) := translate_dev_to_pm_stream repr_value self1 w1 second in
  exists r1 r2 : Request,
    requests w2 = requests w ++ [r1; r2]
    /\ req_session r1 = req_session r2
    /\ self2 = self1
    /\ sessions w2 = sessions w1.
Proof.
  intros H1 H2. apply two_streams_one_session; assumption.
Qed.

Lemma successive_translations_share_the_session_witness :
  let '(self1, w1, _) :=
    translate_pm_to_dev_stream (fun _ => []) example_translator
      (example_world (fun _ => no_json_response)) (lit "add a login page") in
  let '(self2, w2, _) :=
    translate_dev_to_pm_stream (fun _ => []) self1 w1 (lit "use a cache") in
  exists r1 r2 : Request,
    requests w2 = [r1; r2]
    /\ req_session r1 = req_session r2
    /\ self2 = self1
    /\ sessions w2 = sessions w1.
Proof.
  apply (successive_translations_share_the_session (fun _ => []) example_translator
           (example_world (fun _ => no_json_response))
           (lit "add a login page") (lit "use a cache"));
    vm_compute; reflexivity.
Defined.

(** ** Construction and the singleton *)

Lemma py_int_raises_ValueError
    (repr_value : pyvalue -> text) (s : text) (e : py_exc) :
  py_int repr_value s = Raise e -> exc_type e = ValueError.
Proof.
  unfold py_int.
  repeat match goal with
  | |- context [let '(_, _) := ?x in _] => destruct x
  | |- context [match ?x with _ => _ end] => destruct x
  end; intros H; try discriminate H; injection H as <-; reflexivity.
Qed.

(** X16. Construction reads the token limit before it looks at the key: a
    [DEEPSEEK_MAX_TOKENS] that [int] rejects fails the construction with
    that [ValueError] whether or not a key is set, and a missing or empty
    key fails it with the message that asks for the key. Otherwise the
    translator carries the key, the base address and the model of the
    environment or their defaults, the limit read as an integer, a timeout
    of 60 and no session; nothing else makes construction fail. *)
Theorem construction_reads_the_environment
    (repr_value : pyvalue -> text) (environ : text -> option text)
    (pm dev : text -> text) :
  match __init__ repr_value environ pm dev with
  | Ok self =>
    getenv environ "DEEPSEEK_API_KEY" = Some (api_key self)
    /\ api_key self <> []
    /\ base_url self
       = getenv_or environ "DEEPSEEK_API_BASE" (lit "https://api.deepseek.com")
    /\ model self = getenv_or environ "DEEPSEEK_MODEL" (lit "deepseek-chat")
    /\ py_int repr_value (getenv_or environ "DEEPSEEK_MAX_TOKENS" (lit "2000"))
       = Ok (max_tokens self)
    /\ (getenv environ "DEEPSEEK_MAX_TOKENS" = None -> max_tokens self = 2000%Z)
    /\ timeout self = 60%nat
    /\ _session self = None
  | Raise e =>
    exc_type e = ValueError
    /\ (py_int repr_value (getenv_or environ "DEEPSEEK_MAX_TOKENS" (lit "2000"))
        = Raise e
        \/ (exists limit : Z,
              py_int repr_value (getenv_or environ "DEEPSEEK_MAX_TOKENS" (lit "2000"))
              = Ok limit)
           /\ e = mk_exc ValueError (lit "请设置DEEPSEEK_API_KEY环境变量")
           /\ (getenv environ "DEEPSEEK_API_KEY" = None
               \/ getenv environ "DEEPSEEK_API_KEY" = Some []))
  end.
Proof.
  unfold __init__, rbind.
  destruct (py_int repr_value (getenv_or environ "DEEPSEEK_MAX_TOKENS" (lit "2000")))
    as [limit | e] eqn:Ei.
  - destruct (getenv environ "DEEPSEEK_API_KEY") as [[|c key]|] eqn:Ek.
    + split; [reflexivity|]. right. split; [exists limit; reflexivity|]. auto.
    + cbn [api_key base_url model max_tokens timeout _session].
      repeat split; try reflexivity; try discriminate.
      intros Hnone. unfold getenv_or in Ei. unfold getenv in Hnone.
      rewrite Hnone in Ei. vm_compute in Ei. injection Ei as <-. reflexivity.
    + split; [reflexivity|]. right. split; [exists limit; reflexivity|]. auto.
  - split; [|left; reflexivity].
    exact (py_int_raises_ValueError repr_value _ e Ei).
Qed.

(** X17. [get_translator] constructs the translator at most once: after a
    call that returned one, the global holds it and every later call
    returns it without reading the environment, whatever the environment
    has become; a call that failed leaves the global empty, so the next
    call constructs again. Neither [get_translator] nor the health check
    touches a session or sends a request. *)
Theorem translator_is_constructed_once
    (repr_value : pyvalue -> text) (app : App) :
  (let '(r, app1) := ai_engine.get_translator repr_value app in
   world app1 = world app
   /\ match r with
      | Ok translator =>
        _translator_instance app1 = Some translator
        /\ forall (environ' : text -> option text) (pm dev : text -> text),
             ai_engine.get_translator repr_value
               (mk_app environ' pm dev (_translator_instance app1) (world app1))
             = (Ok translator,
                mk_app environ' pm dev (_translator_instance app1) (world app1))
      | Raise e => app1 = app /\ _translator_instance app = None
      end)
  /\ world (snd (main.health_check repr_value app)) = world app.
Proof.
  assert (H : let '(r, app1) := ai_engine.get_translator repr_value app in
              world app1 = world app
              /\ match r with
                 | Ok translator =>
                   _translator_instance app1 = Some translator
                   /\ forall (environ' : text -> option text) (pm dev : text -> text),
                        ai_engine.get_translator repr_value
                          (mk_app environ' pm dev (_translator_instance app1) (world app1))
                        = (Ok translator,
                           mk_app environ' pm dev (_translator_instance app1) (world app1))
                 | Raise e => app1 = app /\ _translator_instance app = None
                 end).
  { unfold ai_engine.get_translator.
    destruct (_translator_instance app) as [t|] eqn:E.
    - split; [reflexivity|]. split; [exact E|].
      intros environ' pm dev. cbn [_translator_instance]. rewrite E. reflexivity.
    - destruct (__init__ _ _ _ _) as [t | e].
      + split; [reflexivity|]. split; [reflexivity|]. intros. reflexivity.
      + split; [reflexivity|]. split; reflexivity. }
  split; [exact H|].
  unfold main.health_check.
  destruct (ai_engine.get_translator repr_value app) as [[t | e] app1];
    destruct H as [H _]; exact H.
Qed.

Lemma close_closes (self : DeepSeekTranslator) (w : World) (l : nat) :
  _session self = Some l -> is_closed (snd (close self w)) l = true.
Proof.
  intros H. unfold close. rewrite H.
  destruct (is_closed w l) eqn:E; cbn [negb snd]; [exact E|].
  apply is_closed_session_close.
Qed.

(** X18. Shutting down closes the session of the translator, if it has
    one, and empties the global without sending anything; shutting down
    again changes nothing; and the next [get_translator] constructs a
    translator from the environment anew. *)
Theorem shutdown_drops_the_translator
    (repr_value : pyvalue -> text) (app : App) :
  let app' := main.shutdown_event app in
  _translator_instance app' = None
  /\ requests (world app') = requests (world app)
  /\ (forall (translator : DeepSeekTranslator) (l : nat),
        _translator_instance app = Some translator ->
        _session translator = Some l ->
        is_closed (world app') l = true)
  /\ main.shutdown_event app' = app'
  /\ ai_engine.get_translator repr_value app'
     = match __init__ repr_value (environ app) (PM_TO_DEV_PROMPT app)
               (DEV_TO_PM_PROMPT app) with
       | Ok translator =>
         (Ok translator, set_instance app' (Some translator) (world app'))
       | Raise e => (Raise e, app')
       end.
Proof.
  unfold main.shutdown_event, ai_engine.cleanup, ai_engine.close_translator.
  destruct (_translator_instance app) as [t|] eqn:E.
  - pose proof (close_keeps_log t (world app)) as [Hreq _].
    pose proof (close_closes t (world app)) as Hcl.
    destruct (close t (world app)) as [t' w']. cbn [snd] in *.
    cbn [set_instance _translator_instance world].
    repeat split; try reflexivity.
    + exact Hreq.
    + intros t0 l [= <-]. apply Hcl.
  - cbv zeta. rewrite E.
    repeat split; try reflexivity.
    + intros t0 l Ht. discriminate Ht.
    + unfold ai_engine.get_translator. rewrite E. reflexivity.
Qed.

(** ** The endpoints *)

Lemma get_translator_with_instance
    (repr_value : pyvalue -> text) (app : App) (translator : DeepSeekTranslator) :
  _translator_instance app = Some translator ->
  ai_engine.get_translator repr_value app = (Ok translator, app).
Proof. intros H. unfold ai_engine.get_translator. rewrite H. reflexivity. Qed.

Lemma get_translator_when_construction_fails
    (repr_value : pyvalue -> text) (app : App) (e : py_exc) :
  _translator_instance app = None ->
  __init__ repr_value (environ app) (PM_TO_DEV_PROMPT app) (DEV_TO_PM_PROMPT app)
    = Raise e ->
  ai_engine.get_translator repr_value app = (Raise e, app).
Proof. intros H He. unfold ai_engine.get_translator. rewrite H, He. reflexivity. Qed.

(** X19. Asked not to stream, an endpoint that has a translator runs the
    streaming translation of its direction and answers with the fragments
    joined under [translation]; a failure of the network is therefore not
    an HTTP error but the text of the answer. Only a fragment that is not
    a string makes the endpoint fail, with status 500 and the message of
    the join. *)
Theorem endpoint_returns_joined_fragments
    (repr_value : pyvalue -> text) (app : App) (request : main.TranslationRequest)
    (translator : DeepSeekTranslator) :
  main.stream request = false ->
  _translator_instance app = Some translator ->
  (let '(translator', w', g) :=
     translate_pm_to_dev_stream repr_value translator (world app)
       (main.text_ request) in
   main.translate_product_to_dev repr_value app request
   = (match str_join (fst g) with
      | Ok translation =>
        main.Responds (main.Returned (PyDict [(lit "translation", PyStr translation)]))
      | Raise e => main.HTTPException 500 (lit "翻译失败: " ++ exc_str e)
      end,
      set_instance app (Some translator') w')
   /\ returned (str_join (fst g)) = concatenation (fst g))
  /\ (let '(translator', w', g) :=
        translate_dev_to_pm_stream repr_value translator (world app)
          (main.text_ request) in
      main.translate_dev_to_product repr_value app request
      = (match str_join (fst g) with
         | Ok translation =>
           main.Responds (main.Returned (PyDict [(lit "translation", PyStr translation)]))
         | Raise e => main.HTTPException 500 (lit "翻译失败: " ++ exc_str e)
         end,
         set_instance app (Some translator') w')
      /\ returned (str_join (fst g)) = concatenation (fst g)).
Proof.
  intros Hs Ht.
  destruct (streams_end_normally repr_value translator (world app) (main.text_ request))
    as [Hpm Hdev].
  unfold main.translate_product_to_dev, main.translate_dev_to_product.
  rewrite Hs, (get_translator_with_instance repr_value app translator Ht).
  split.
  - destruct (translate_pm_to_dev_stream _ _ _ _) as [[t' w'] g].
    cbn [snd] in Hpm. rewrite Hpm, append_all. cbn [List.app].
    split; [|apply join_from_concatenation].
    destruct (str_join (fst g)); reflexivity.
  - destruct (translate_dev_to_pm_stream _ _ _ _) as [[t' w'] g].
    cbn [snd] in Hdev. rewrite Hdev, append_all. cbn [List.app].
    split; [|apply join_from_concatenation].
    destruct (str_join (fst g)); reflexivity.
Qed.

(** A refused connection, asked not to stream: status 200, and the
    diagnostics are the translation. *)
Lemma endpoint_returns_joined_fragments_witness :
  fst (main.translate_product_to_dev (fun _ => [])
         (mk_app (fun _ => None) (fun t => t) (fun t => t) (Some example_translator)
            (example_world
               (fun _ => Raise (mk_exc ClientConnectorError (lit "refused")))))
         (main.mk_translation_request (lit "add a login page") false))
  = main.Responds (main.Returned (PyDict [
      (lit "translation",
       PyStr (lit "【网络错误】无法连接到DeepSeek API: refused"
              ++ lit "请检查：" ++ [NL] ++ lit "1. 网络连接是否正常" ++ [NL]
              ++ lit "2. API地址是否正确" ++ [NL] ++ lit "3. 防火墙设置"))])).
Proof.
  pose proof (endpoint_returns_joined_fragments (fun _ => [])
                (mk_app (fun _ => None) (fun t => t) (fun t => t)
                   (Some example_translator)
                   (example_world
                      (fun _ => Raise (mk_exc ClientConnectorError (lit "refused")))))
                (main.mk_translation_request (lit "add a login page") false)
                example_translator eq_refl eq_refl) as [H _].
  destruct (translate_pm_to_dev_stream _ _ _ _) as [[t' w'] g] eqn:E.
  destruct H as [H _]. rewrite H. cbn [fst].
  apply (f_equal snd) in E. cbn [snd] in E. rewrite <- E.
  vm_compute. reflexivity.
Defined.

(** X20. While no translator exists and construction fails, every entry
    point fails with the exception of the construction and changes
    nothing: the start-up and the health check raise it, an endpoint asked
    not to stream turns it into status 500 with its message, and an
    endpoint asked to stream has already answered with an event stream
    when the body raises it. *)
Theorem construction_failure_reaches_every_entry_point
    (repr_value : pyvalue -> text) (app : App) (request : main.TranslationRequest)
    (e : py_exc) :
  _translator_instance app = None ->
  __init__ repr_value (environ app) (PM_TO_DEV_PROMPT app) (DEV_TO_PM_PROMPT app)
    = Raise e ->
  main.translate_product_to_dev repr_value app request
  = (if main.stream request
     then main.Responds
            (main.StreamingResponse ([], Raise e) (lit "text/event-stream")
               [(lit "Cache-Control", lit "no-cache"); (lit "X-Accel-Buffering", lit "no")])
     else main.HTTPException 500 (lit "翻译失败: " ++ exc_str e),
     app)
  /\ main.translate_dev_to_product repr_value app request
     = (if main.stream request
        then main.Responds
               (main.StreamingResponse ([], Raise e) (lit "text/event-stream")
                  [(lit "Cache-Control", lit "no-cache"); (lit "X-Accel-Buffering", lit "no")])
        else main.HTTPException 500 (lit "翻译失败: " ++ exc_str e),
        app)
  /\ main.startup_event repr_value app = (Raise e, app)
  /\ main.health_check repr_value app = (Raise e, app)
  /\ ai_engine.translate_pm_to_dev repr_value app (main.text_ request)
       (main.stream request) = (Raise e, app)
  /\ ai_engine.translate_dev_to_pm repr_value app (main.text_ request)
       (main.stream request) = (Raise e, app).
Proof.
  intros Hn He.
  pose proof (get_translator_when_construction_fails repr_value app e Hn He) as Hg.
  unfold main.translate_product_to_dev, main.translate_dev_to_product,
    main.startup_event, main.health_check,
    ai_engine.translate_pm_to_dev, ai_engine.translate_dev_to_pm.
  rewrite Hg. destruct (main.stream request); repeat split; reflexivity.
Qed.

(** No key in the environment. *)
Lemma construction_failure_reaches_every_entry_point_witness :
  let app := mk_app (fun _ => None) (fun t => t) (fun t => t) None
               (example_world (fun _ => no_json_response)) in
  main.translate_product_to_dev (fun _ => []) app
    (main.mk_translation_request (lit "add a login page") false)
  = (main.HTTPException 500 (lit "翻译失败: 请设置DEEPSEEK_API_KEY环境变量"), app).
Proof.
  intros app.
  destruct (construction_failure_reaches_every_entry_point (fun _ => []) app
              (main.mk_translation_request (lit "add a login page") false)
              (mk_exc ValueError (lit "请设置DEEPSEEK_API_KEY环境变量")))
    as [H _].
  - reflexivity.
  - vm_compute. reflexivity.
  - rewrite H. vm_compute. reflexivity.
Defined.

(** X21. A blank text reaches no server through the endpoints either:
    asked not to stream they answer with the prompt of their direction as
    the translation, asked to stream the body is that prompt alone, and
    the process is left as it was. *)
Theorem blank_text_at_the_endpoints
    (repr_value : pyvalue -> text) (app : App) (request : main.TranslationRequest)
    (translator : DeepSeekTranslator) :
  _translator_instance app = Some translator ->
  forallb is_space (main.text_ request) = true ->
  main.translate_product_to_dev repr_value app request
  = (if main.stream request
     then main.Responds
            (main.StreamingResponse ([PyStr (lit "请输入有效的产品需求")], Ok tt)
               (lit "text/event-stream") main.STREAM_HEADERS)
     else main.Responds
            (main.Returned (PyDict [(lit "translation", PyStr (lit "请输入有效的产品需求"))])),
     set_instance app (Some translator) (world app))
  /\ main.translate_dev_to_product repr_value app request
     = (if main.stream request
        then main.Responds
               (main.StreamingResponse ([PyStr (lit "请输入有效的技术方案")], Ok tt)
                  (lit "text/event-stream") main.STREAM_HEADERS)
        else main.Responds
               (main.Returned (PyDict [(lit "translation", PyStr (lit "请输入有效的技术方案"))])),
        set_instance app (Some translator) (world app)).
Proof.
  intros Ht Hb. apply is_blank_all_space in Hb.
  unfold main.translate_product_to_dev, main.translate_dev_to_product.
  rewrite (get_translator_with_instance repr_value app translator Ht).
  unfold translate_pm_to_dev_stream, translate_dev_to_pm_stream. rewrite Hb.
  destruct (main.stream request); split; reflexivity.
Qed.

Lemma blank_text_at_the_endpoints_witness :
  let app := mk_app (fun _ => None) (fun t => t) (fun t => t) (Some example_translator)
               (example_world (fun _ => no_json_response)) in
  main.translate_product_to_dev (fun _ => []) app
    (main.mk_translation_request (lit "  ") false)
  = (main.Responds
       (main.Returned (PyDict [(lit "translation", PyStr (lit "请输入有效的产品需求"))])),
     app).
Proof.
  intros app.
  destruct (blank_text_at_the_endpoints (fun _ => []) app
              (main.mk_translation_request (lit "  ") false) example_translator)
    as [H _].
  - reflexivity.
  - vm_compute. reflexivity.
  - rewrite H. reflexivity.
Defined.

(** X22. Asked to stream, an endpoint that has a translator answers with
    an event stream under the two headers that forbid caching and
    buffering; its body is the streaming translation of its direction,
    fragment for fragment, and ends normally. *)
Theorem streaming_endpoint_relays_the_stream
    (repr_value : pyvalue -> text) (app : App) (request : main.TranslationRequest)
    (translator : DeepSeekTranslator) :
  main.stream request = true ->
  _translator_instance app = Some translator ->
  (let '(translator', w', g) :=
     translate_pm_to_dev_stream repr_value translator (world app)
       (main.text_ request) in
   main.translate_product_to_dev repr_value app request
   = (main.Responds
        (main.StreamingResponse g (lit "text/event-stream")
           [(lit "Cache-Control", lit "no-cache"); (lit "X-Accel-Buffering", lit "no")]),
      set_instance app (Some translator') w')
   /\ snd g = Ok tt)
  /\ (let '(translator', w', g) :=
        translate_dev_to_pm_stream repr_value translator (world app)
          (main.text_ request) in
      main.translate_dev_to_product repr_value app request
      = (main.Responds
           (main.StreamingResponse g (lit "text/event-stream")
              [(lit "Cache-Control", lit "no-cache"); (lit "X-Accel-Buffering", lit "no")]),
         set_instance app (Some translator') w')
      /\ snd g = Ok tt).
Proof.
  intros Hs Ht.
  destruct (streams_end_normally repr_value translator (world app) (main.text_ request))
    as [Hpm Hdev].
  unfold main.translate_product_to_dev, main.translate_dev_to_product.
  rewrite Hs, (get_translator_with_instance repr_value app translator Ht).
  split.
  - destruct (translate_pm_to_dev_stream _ _ _ _) as [[t' w'] g].
    rewrite async_for_yield. split; [reflexivity | exact Hpm].
  - destruct (translate_dev_to_pm_stream _ _ _ _) as [[t' w'] g].
    rewrite async_for_yield. split; [reflexivity | exact Hdev].
Qed.

Lemma streaming_endpoint_relays_the_stream_witness :
  fst (main.translate_product_to_dev (fun _ => [])
         (mk_app (fun _ => None) (fun t => t) (fun t => t) (Some example_translator)
            (example_world
               (fun _ => Ok (mk_response 200 (Ok []) no_json [greeting_stream] None))))
         (main.mk_translation_request (lit "add a login page") true))
  = main.Responds
      (main.StreamingResponse ([PyStr (lit "你好")], Ok tt) (lit "text/event-stream")
         [(lit "Cache-Control", lit "no-cache"); (lit "X-Accel-Buffering", lit "no")]).
Proof.
  pose proof (streaming_endpoint_relays_the_stream (fun _ => [])
                (mk_app (fun _ => None) (fun t => t) (fun t => t)
                   (Some example_translator)
                   (example_world
                      (fun _ => Ok (mk_response 200 (Ok []) no_json [greeting_stream] None))))
                (main.mk_translation_request (lit "add a login page") true)
                example_translator eq_refl eq_refl) as [H _].
  destruct (translate_pm_to_dev_stream _ _ _ _) as [[t' w'] g] eqn:E.
  destruct H as [H _]. rewrite H. cbn [fst].
  apply (f_equal snd) in E. cbn [snd] in E. rewrite <- E.
  vm_compute. reflexivity.
Defined.

(** X23. Once a translator is there, start-up cannot fail: it runs the
    connectivity test, sends that one request, ignores the answer, and
    leaves the translator in the global without a session, the session of
    the test being closed. *)
Theorem startup_tests_the_connection_once
    (repr_value : pyvalue -> text) (app app1 : App)
    (translator : DeepSeekTranslator) :
  ai_engine.get_translator repr_value app = (Ok translator, app1) ->
  let '(r, app2) := main.startup_event repr_value app in
  r = Ok tt
  /\ _translator_instance app2 = Some (set_session translator None)
  /\ exists l : nat,
       requests (world app2) = requests (world app) ++ [test_request translator l]
       /\ is_closed (world app2) l = true.
Proof.
  intros Hg.
  assert (Hw : world app1 = world app).
  { unfold ai_engine.get_translator in Hg.
    destruct (_translator_instance app); [injection Hg as _ <-; reflexivity|].
    destruct (__init__ _ _ _ _); [|discriminate Hg].
    injection Hg as _ <-. reflexivity. }
  unfold main.startup_event. rewrite Hg, test_connection_unfolds, Hw.
  destruct (get_session translator (world app)) as [[l t1] w1].
  cbn [set_instance _translator_instance world].
  split; [reflexivity|]. split; [reflexivity|]. exists l. split.
  - unfold session_close. cbn [sessions requests server].
    destruct (sessions w1 !! l); reflexivity.
  - apply is_closed_session_close.
Qed.

Lemma startup_tests_the_connection_once_witness :
  let app := mk_app (fun _ => None) (fun t => t) (fun t => t) (Some example_translator)
               (example_world (fun _ => Raise (mk_exc TimeoutError []))) in
  let '(r, app2) := main.startup_event (fun _ => []) app in
  r = Ok tt
  /\ _translator_instance app2 = Some (set_session example_translator None)
  /\ exists l : nat,
       requests (world app2) = requests (world app) ++ [test_request example_translator l]
       /\ is_closed (world app2) l = true.
Proof.
  intros app.
  apply (startup_tests_the_connection_once (fun _ => []) app app example_translator).
  reflexivity.
Defined.

Lemma get_translator_keeps_world
    (repr_value : pyvalue -> text) (app app1 : App) (r : result DeepSeekTranslator) :
  ai_engine.get_translator repr_value app = (r, app1) -> world app1 = world app.
Proof.
  unfold ai_engine.get_translator. intros Hg.
  destruct (_translator_instance app); [injection Hg as _ <-; reflexivity|].
  destruct (__init__ _ _ _ _); injection Hg as _ <-; reflexivity.
Qed.

(** X24. Through the module's functions, a first translation constructs
    the translator if there is none, and a second one, started once the
    stream of the first has been run to its end, finds that translator in
    the global and sends its request on the session the first one
    opened. *)
Theorem module_translations_share_the_translator
    (repr_value : pyvalue -> text) (app app0 : App)
    (translator : DeepSeekTranslator) (first second : text) :
  ai_engine.get_translator repr_value app = (Ok translator, app0) ->
  is_blank first = false ->
  is_blank second = false ->
  exists (g1 g2 : gen unit) (app1 app2 : App) (r1 r2 : Request),
    ai_engine.translate_pm_to_dev repr_value app first true = (Ok (Stream g1), app1)
    /\ ai_engine.translate_dev_to_pm repr_value app1 second true
       = (Ok (Stream g2), app2)
    /\ requests (world app2) = requests (world app) ++ [r1; r2]
    /\ req_session r1 = req_session r2
    /\ _translator_instance app2 = _translator_instance app1
    /\ exists l : nat,
         _translator_instance app1 = Some (set_session translator (Some l)).
Proof.
  intros Hg H1 H2.
  pose proof (get_translator_keeps_world repr_value app app0 _ Hg) as Hw.
  pose proof (two_streams_one_session repr_value translator (world app)
                first second H1 H2) as H.
  unfold ai_engine.translate_pm_to_dev, translate_pm_to_dev. rewrite Hg, Hw.
  assert (Hs : exists l : nat,
            fst (fst (translate_pm_to_dev_stream repr_value translator (world app) first))
            = set_session translator (Some l)).
  { unfold translate_pm_to_dev_stream. rewrite H1, stream_of_call, call_unfolds.
    pose proof (get_session_open translator (world app)) as Ho.
    destruct (get_session translator (world app)) as [[l t1] w1] eqn:Eg.
    destruct Ho as (_ & Hself & _ & _). exists l. cbn [fst].
    unfold get_session in Eg.
    destruct (_session translator) as [l0|] eqn:E0;
      [destruct (is_closed (world app) l0)|];
      try (destruct (new_session (world app) _));
      injection Eg as <- <- <-; try reflexivity.
    unfold set_session. rewrite <- E0. destruct translator; reflexivity. }
  destruct (translate_pm_to_dev_stream repr_value translator (world app) first)
    as [[t1 w1] g1].
  cbn [fst] in Hs.
  destruct (translate_dev_to_pm_stream repr_value t1 w1 second) as [[t2 w2] g2] eqn:E2.
  destruct H as (r1 & r2 & Hreq & Hsame & -> & _).
  exists g1, g2, (set_instance app0 (Some t1) w1),
    (set_instance (set_instance app0 (Some t1) w1) (Some t1) w2), r1, r2.
  split; [reflexivity|]. split.
  { unfold ai_engine.translate_dev_to_pm, translate_dev_to_pm.
    rewrite (get_translator_with_instance repr_value
               (set_instance app0 (Some t1) w1) t1) by reflexivity.
    cbn [set_instance world]. rewrite E2. reflexivity. }
  cbn [set_instance _translator_instance world].
  destruct Hs as [l ->].
  repeat split; try reflexivity; try assumption.
  exists l. reflexivity.
Qed.

(** The key is in the environment and no translator exists yet. *)
Lemma module_translations_share_the_translator_witness :
  let app :=
    mk_app (fun name => if text_eqb name (lit "DEEPSEEK_API_KEY")
                        then Some (lit "sk-test") else None)
      (fun t => t) (fun t => t) None (example_world (fun _ => no_json_response)) in
  exists (g1 g2 : gen unit) (app1 app2 : App) (r1 r2 : Request),
    ai_engine.translate_pm_to_dev (fun _ => []) app (lit "add a login page") true
    = (Ok (Stream g1), app1)
    /\ ai_engine.translate_dev_to_pm (fun _ => []) app1 (lit "use a cache") true
       = (Ok (Stream g2), app2)
    /\ requests (world app2) = requests (world app) ++ [r1; r2]
    /\ req_session r1 = req_session r2
    /\ _translator_instance app2 = _translator_instance app1
    /\ exists l : nat,
         _translator_instance app1 = Some (set_session example_translator (Some l)).
Proof.
  intros app.
  apply (module_translations_share_the_translator (fun _ => []) app
           (set_instance app (Some example_translator) (world app))
           example_translator (lit "add a login page") (lit "use a cache"));
    vm_compute; reflexivity.
Defined.

(** ** Messages and unreadable replies *)



(** X26. A reply that cannot be read becomes the diagnostics of the
    exception that reading raised, and the call still ends normally: the
    text of a reply whose status is not 200, or, without streaming, the
    JSON of a reply whose status is 200. *)
Theorem unreadable_reply_yields_diagnostics
    (repr_value : pyvalue -> text) (response : ClientResponse) (stream : bool)
    (e : py_exc) :
  (status response <> 200%Z /\ resp_text response = Raise e)
  \/ (status response = 200%Z /\ stream = false /\ resp_json response = Raise e) ->
  try_except (handle_response repr_value (Ok response) stream) handle_exception
  = (diagnostics e, Ok tt).
Proof.
  intros H. rewrite try_except_handle_exception.
  unfold handle_response. rewrite (gbind_gret_l response).
  destruct H as [[Hst Hr] | (Hst & -> & Hr)].
  - destruct (status response =? 200)%Z eqn:E.
    + apply Z.eqb_eq in E. contradiction.
    + cbn [negb]. unfold error_response. rewrite Hr. reflexivity.
  - rewrite Hst. cbn [Z.eqb Pos.eqb negb]. unfold plain_response. rewrite Hr.
    reflexivity.
Qed.

(** A reply of status 200 whose body is not JSON, asked without streaming. *)
Lemma unreadable_reply_yields_diagnostics_witness :
  try_except
    (handle_response (fun _ => [])
       (Ok (mk_response 200 (Ok []) (Raise (mk_exc ClientError (lit "unexpected mimetype")))
              [] None))
       false)
    handle_exception
  = ([PyStr (lit "【HTTP错误】请求失败: unexpected mimetype")], Ok tt).
Proof.
  eapply eq_trans.
  - apply (unreadable_reply_yields_diagnostics (fun _ => [])
             (mk_response 200 (Ok []) (Raise (mk_exc ClientError (lit "unexpected mimetype")))
                [] None)
             false (mk_exc ClientError (lit "unexpected mimetype"))).
    right. repeat split; reflexivity.
  - vm_compute. reflexivity.
Defined.
